(** * esdoc-webpack-plugin: the plugin's decision logic, embedded and verified

    [src/index.js] holds two variants of the same webpack plugin:

    - the first (lines 1-385) is the class whose methods [lookupFile],
      [getLongestCommonSharedDirectory], [readConfigFile] and [Esdoc] run the
      tool with [spawnSync] inside the emit hook; it is module [Sync] below;
    - the second (lines 387-674) has module-level helpers and runs the tool
      with [spawn] and a promise from the done hook; it is module [Async].

    JavaScript strings are [string]s (code units are [ascii] characters),
    objects are finite maps from property names to values, [null] results are
    [option]s, and a thrown exception is the [Throw] completion.  The file
    system, [path] and [child_process] belong to Node: the file system is a
    finite map from paths to contents, and the [path] functions, the outcome
    of the spawned process and the paths at which a write is refused are
    parameters. *)

From Stdlib Require Import String Ascii ZArith Lia List Bool.
From Stdlib Require Import DecimalString.
From stdpp Require Import gmap strings list fin_maps.

Local Open Scope string_scope.
Local Open Scope list_scope.

(** ** JavaScript values *)

#[warnings="-register-all"] Inductive JsValue : Type :=
  | JUndefined
  | JNull
  | JBool (b : bool)
  | JNum (n : Z)
  | JStr (s : string)
  | JArr (items : list JsValue)
  | JObj (props : list (string * JsValue)).

(** Numbers are carried by their integer value: the plugin only ever tests a
    configuration number for truthiness, which is false exactly at zero. *)
Definition string_truthy (s : string) : bool :=
  match s with EmptyString => false | String _ _ => true end.

Definition truthy (v : JsValue) : bool :=
  match v with
  | JUndefined | JNull => false
  | JBool b => b
  | JNum n => negb (n =? 0)%Z
  | JStr s => string_truthy s
  | JArr _ | JObj _ => true
  end.

(** [a && b] evaluates to [a] when [a] is falsy and to [b] otherwise. *)
Definition js_and (a b : JsValue) : JsValue := if truthy a then b else a.

(** A plain object: own enumerable properties by name. *)
Abbreviation Obj := (gmap string JsValue).

(** [o.k]: a missing property reads as [undefined]. *)
Definition prop (o : Obj) (k : string) : JsValue := default JUndefined (o !! k).

(** [{...a, ...b}]: the properties of [b] are copied over those of [a]. *)
Definition spread (a b : Obj) : Obj := b ∪ a.

(** ** Completions *)

Inductive Exn : Type :=
  | TypeError (msg : string)
  | ReferenceError (name : string)
  | SyntaxError (file : string)
  | ENOENT (path : string)
  | ValidationError (name : string).

Inductive Completion (A : Type) : Type :=
  | Normal (a : A)
  | Throw (e : Exn).
Arguments Normal {A} a.
Arguments Throw {A} e.

(** ** Strings as the code indexes them *)

Definition chars (s : string) : list ascii := list_ascii_of_string s.
Definition of_chars (l : list ascii) : string := string_of_list_ascii l.

(** The path separator. *)
Definition sep : ascii := "/".

(** [s.substring(0, e)]: a negative or [NaN] end is 0, an end past the string
    is its length. *)
Definition substring0 (s : list ascii) (e : Z) : list ascii :=
  take (Z.to_nat e) s.

(** [s.lastIndexOf(c)], -1 when [c] does not occur. *)
Fixpoint lastIndexOf (c : ascii) (s : list ascii) : Z :=
  match s with
  | [] => (-1)%Z
  | a :: r =>
      let i := lastIndexOf c r in
      if (0 <=? i)%Z then (i + 1)%Z
      else if Ascii.eqb a c then 0%Z else (-1)%Z
  end.

(** [Array.prototype.some] with a callback that also updates state: the scan
    stops at the first element for which the callback's result is truthy. *)
Fixpoint array_some {S A : Type} (cb : A -> S -> bool * S) (l : list A) (st : S)
  : bool * S :=
  match l with
  | [] => (false, st)
  | x :: xs =>
      let '(r, st') := cb x st in
      if r then (true, st') else array_some cb xs st'
  end.

(** ** Executable Locator: [lookupFile] (lines 167-185 and 429-443, the same
    text in both variants) *)

Section LookupFile.
Variable path_join : string -> string -> string.
Variable path_resolve : string -> string.
Variable existsSync : string -> bool.

(** The inner callback: [return found = file] assigns and yields [file], whose
    truthiness stops the scan; otherwise the callback yields [undefined]. *)
Definition lookup_dir (filename dirname : string) (found : option string)
  : bool * option string :=
  let file := path_resolve (path_join dirname filename) in
  if existsSync file then (string_truthy file, Some file) else (false, found).

Definition lookupFile (files dirs : list string) : option string :=
  snd (array_some (fun filename => array_some (lookup_dir filename) dirs)
         files None).

(** The candidates in the order the two nested scans visit them. *)
Definition candidates (files dirs : list string) : list string :=
  flat_map (fun filename =>
              map (fun dirname => path_resolve (path_join dirname filename)) dirs)
           files.
End LookupFile.

(** ** The regular expressions of the hooks *)

(** [/\/node_modules\//.test(filepath)] *)
Definition in_node_modules (filepath : string) : bool :=
  match index 0 "/node_modules/" filepath with Some _ => true | None => false end.

Definition is_line_terminator (c : ascii) : bool :=
  Ascii.eqb c "010" || Ascii.eqb c "013".

(** [/index.js$/.test(filepath)]: the dot is not escaped, so it stands for any
    character but a line terminator. *)
Definition matches_index_js (filepath : string) : bool :=
  match rev (chars filepath) with
  | "s" :: "j" :: c :: "x" :: "e" :: "d" :: "n" :: "i" :: _ =>
      negb (is_line_terminator c)
  | _ => false
  end%char.

(** [/\.tmp$/.test(name)] *)
Definition ends_with_tmp (name : string) : bool :=
  match rev (chars name) with
  | "p" :: "m" :: "t" :: "." :: _ => true
  | _ => false
  end%char.

(** The loaders of [require], and the one it takes for a file: the name's
    last extension decides, a name that is nothing but an extension has none,
    and a file without a registered extension is taken as JavaScript. *)
Inductive Loader : Type :=
  | JsonLoader
  | NodeLoader
  | JsLoader.

Definition require_loader (filepath : string) : Loader :=
  match rev (chars filepath) with
  | "n" :: "o" :: "s" :: "j" :: "." :: c :: _ =>
      if Ascii.eqb c "/" then JsLoader else JsonLoader
  | "e" :: "d" :: "o" :: "n" :: "." :: c :: _ =>
      if Ascii.eqb c "/" then JsLoader else NodeLoader
  | _ => JsLoader
  end%char.

(** [/^win/.test(platform)] *)
Definition starts_with_win (platform : string) : bool :=
  String.prefix "win" platform.

(** ** The file system *)

(** A file either holds the JSON text of an object, or something that neither
    parses as JSON nor loads as a JavaScript module.  [JSON.stringify (o)] is
    identified with the object it encodes. *)
Inductive File : Type :=
  | JsonFile (o : Obj)
  | OtherFile.

Definition fs_existsSync (fs : gmap string File) (p : string) : bool :=
  bool_decide (is_Some (fs !! p)).

(** What a write that goes through does to the files; [writeFileSync] below
    is the call, which the system may refuse. *)
Definition fs_writeFileSync (fs : gmap string File) (p : string) (o : Obj)
  : gmap string File :=
  <[p := JsonFile o]> fs.

(** [unlinkSync] throws on a path that does not exist. *)
Definition fs_unlinkSync (fs : gmap string File) (p : string)
  : Completion (gmap string File) :=
  if fs_existsSync fs p then Normal (delete p fs) else Throw (ENOENT p).

(** ** What Node provides *)

Record ParsedPath := { dir : string; base : string }.

(** The result of [spawnSync]: a stream is [null] when the process could not
    be started. *)
Record SpawnSyncReturns := {
  stdout : option string;
  stderr : option string;
  status : option Z;
}.

(** What the child started by [spawn] emits, in order. *)
Inductive ProcEvent : Type :=
  | StdoutData (data : string)
  | StderrData (data : string)
  | Close (closeCode : Z).

(** What the hooks take from Node: the [path] functions, the process, the
    two ways of starting a child, and for each path whether writing a file
    there is refused (a missing or unwritable directory), and with what. *)
Record Env := {
  path_join : string -> string -> string;
  path_resolve : string -> string;
  path_resolve2 : string -> string -> string;
  path_dirname : string -> string;
  path_parse : string -> ParsedPath;
  process_cwd : string;
  module_dirname : string;
  process_platform : string;
  spawnSync : option string -> list string -> string -> Completion SpawnSyncReturns;
  spawn : option string -> list string -> string -> Completion (list ProcEvent);
  writeFileSync_error : string -> option Exn;
}.

(** ** The state a build cycle works on *)

Inductive ErrorValue : Type :=
  | NewError (message : string)
  | Caught (e : Exn).

(** One invocation of the pipeline's continuation. *)
Inductive CallbackArg : Type :=
  | CbNone
  | CbErr (e : ErrorValue).

(** The file system, what was observed from outside (the continuation's
    invocations, [console.error]), and the variables that [apply] declares
    once and every cycle shares. *)
Record St := mkSt {
  fs : gmap string File;
  calls : list CallbackArg;
  console_error : list string;
  cmd : option string;
  esdocConfig : string;
  obj : option Obj;
  files : list string;
  tmpFile : option string;
  esdocArgs : list string;
  esdocErrors : list string;
}.

Definition set_fs (x : gmap string File) (s : St) : St :=
  mkSt x (calls s) (console_error s) (cmd s) (esdocConfig s) (obj s) (files s)
       (tmpFile s) (esdocArgs s) (esdocErrors s).
Definition set_calls (x : list CallbackArg) (s : St) : St :=
  mkSt (fs s) x (console_error s) (cmd s) (esdocConfig s) (obj s) (files s)
       (tmpFile s) (esdocArgs s) (esdocErrors s).
Definition set_console_error (x : list string) (s : St) : St :=
  mkSt (fs s) (calls s) x (cmd s) (esdocConfig s) (obj s) (files s)
       (tmpFile s) (esdocArgs s) (esdocErrors s).
Definition set_cmd (x : option string) (s : St) : St :=
  mkSt (fs s) (calls s) (console_error s) x (esdocConfig s) (obj s) (files s)
       (tmpFile s) (esdocArgs s) (esdocErrors s).
Definition set_esdocConfig (x : string) (s : St) : St :=
  mkSt (fs s) (calls s) (console_error s) (cmd s) x (obj s) (files s)
       (tmpFile s) (esdocArgs s) (esdocErrors s).
Definition set_obj (x : option Obj) (s : St) : St :=
  mkSt (fs s) (calls s) (console_error s) (cmd s) (esdocConfig s) x (files s)
       (tmpFile s) (esdocArgs s) (esdocErrors s).
Definition set_files (x : list string) (s : St) : St :=
  mkSt (fs s) (calls s) (console_error s) (cmd s) (esdocConfig s) (obj s) x
       (tmpFile s) (esdocArgs s) (esdocErrors s).
Definition set_tmpFile (x : option string) (s : St) : St :=
  mkSt (fs s) (calls s) (console_error s) (cmd s) (esdocConfig s) (obj s) (files s)
       x (esdocArgs s) (esdocErrors s).
Definition set_esdocArgs (x : list string) (s : St) : St :=
  mkSt (fs s) (calls s) (console_error s) (cmd s) (esdocConfig s) (obj s) (files s)
       (tmpFile s) x (esdocErrors s).
Definition set_esdocErrors (x : list string) (s : St) : St :=
  mkSt (fs s) (calls s) (console_error s) (cmd s) (esdocConfig s) (obj s) (files s)
       (tmpFile s) (esdocArgs s) x.

(** ** A state and exception monad for the hooks *)

Definition M (A : Type) : Type := St -> Completion A * St.

Definition ret {A : Type} (a : A) : M A := fun s => (Normal a, s).

Definition bind {A B : Type} (m : M A) (k : A -> M B) : M B :=
  fun s => match m s with
           | (Normal a, s') => k a s'
           | (Throw e, s') => (Throw e, s')
           end.

Definition throw {A : Type} (e : Exn) : M A := fun s => (Throw e, s).

(** [try { m } catch (e) { h e }] *)
Definition try_catch {A : Type} (m : M A) (h : Exn -> M A) : M A :=
  fun s => match m s with
           | (Normal a, s') => (Normal a, s')
           | (Throw e, s') => h e s'
           end.

Definition get : M St := fun s => (Normal s, s).
Definition modify (f : St -> St) : M unit := fun s => (Normal tt, f s).
Definition lift {A : Type} (c : Completion A) : M A := fun s => (c, s).

Declare Scope js_scope.
Delimit Scope js_scope with js.
Notation "x <- c1 ;; c2" := (bind c1 (fun x => c2))
  (at level 100, c1 at next level, right associativity) : js_scope.
Notation "c1 ;; c2" := (bind c1 (fun _ => c2))
  (at level 100, right associativity) : js_scope.

(** [callback(arg)]: the continuation of the emit hook. *)
Definition callback (arg : CallbackArg) : M unit :=
  modify (fun s => set_calls (calls s ++ [arg]) s).

Definition console_error_log (line : string) : M unit :=
  modify (fun s => set_console_error (console_error s ++ [line]) s).

(** [fse.writeFileSync(file, JSON.stringify(content))]: throws when the system
    refuses the write, and otherwise replaces the file. [JSON.stringify(null)]
    is not the text of an object; neither hook reaches the write with [obj]
    null, since reading a property of it has thrown before. *)
Definition writeFileSync (env : Env) (file : string) (content : option Obj)
  : M unit :=
  match writeFileSync_error env file with
  | Some e => throw e
  | None =>
      modify (fun s => match content with
                       | Some o => set_fs (fs_writeFileSync (fs s) file o) s
                       | None => set_fs (<[file := OtherFile]> (fs s)) s
                       end)
  end.

(** ** The plugin instance *)

Definition as_string (v : JsValue) : string :=
  match v with JStr s => s | _ => "" end.

(** [a || b] *)
Definition js_or (a b : JsValue) : JsValue := if truthy a then a else b.

(** The constructor's [defaultOptions] (lines 30-42 and 498-510). *)
Definition defaultOptions (opts : Obj) : Obj :=
  list_to_map
    [ ("conf", JStr ".esdoc.json");
      ("cwd", js_or (prop opts "cwd") (JStr "./"));
      ("preserveTmpFile", JBool true);
      ("showOutput", JBool false);
      ("source", JStr "./src");
      ("destination", JStr "./docs");
      ("excludes", JArr [JStr "\.config\.js"; JStr "\.babel\.js"]);
      ("plugins", JArr [JObj [("name", JStr "esdoc-standard-plugin")]]) ].

(** [this.options = {...defaultOptions, ...opts}] (lines 52 and 514): what the
    constructor builds once the validation has passed. *)
Definition merged_options (opts : Obj) : Obj := spread (defaultOptions opts) opts.

(** The schema of the options (lines 73-91 and 399-415). *)
Inductive SchemaType : Type :=
  | TString
  | TBoolean.

Definition schema : list (string * SchemaType) :=
  [("conf", TString); ("cwd", TString); ("preserveTmpFile", TBoolean);
   ("showOutput", TBoolean)].

Definition has_type (ty : SchemaType) (v : JsValue) : bool :=
  match ty, v with
  | TString, JStr _ => true
  | TBoolean, JBool _ => true
  | _, _ => false
  end.

(** [validateOptions(schema, opts, name)] of schema-utils, for a schema of
    this shape: a listed property that is defined must have the declared
    type; a property that is missing, [undefined] or not listed passes. *)
Definition validateOptions (sch : list (string * SchemaType)) (opts : Obj)
    (name : string) : Completion unit :=
  if forallb (fun entry : string * SchemaType =>
                match opts !! fst entry with
                | None | Some JUndefined => true
                | Some v => has_type (snd entry) v
                end) sch
  then Normal tt else Throw (ValidationError name).

(** The name the validation is given: line 28, and line 497. *)
Definition first_variant_name : string := "ESDoc Webpack plugin".

Definition second_variant_name : string := "ESDoc webpack plugin".

(** The constructor (lines 26-65 and 496-519), the same in both variants but
    for [name]. Called without an argument it takes
    [{source: './src', destination: './docs'}]; it validates, then merges.
    Printing the options under [showOutput] is left out. *)
Definition constructor (name : string) (arg : option Obj) : Completion Obj :=
  let opts : Obj :=
    match arg with
    | Some o => o
    | None => list_to_map [("source", JStr "./src"); ("destination", JStr "./docs")]
    end in
  match validateOptions schema opts name with
  | Throw e => Throw e
  | Normal _ => Normal (merged_options opts)
  end.

Definition PLUGIN_NAME : string := "ESDocPlugin".

(** [files.forEach]-callback of the inference branch: [dedup] is the
    [!files.includes(filepath)] test, which only the first variant has. *)
Definition collect (dedup : bool) (files : list string) (filepath : string)
  : list string :=
  let exception := in_node_modules filepath in
  let inclusion := matches_index_js filepath in
  if negb exception && inclusion
     && negb (dedup && bool_decide (filepath ∈ files))
  then files ++ [filepath] else files.

(** The test [obj.source && obj.includes] of both emit hooks. *)
Definition authoritative (o : Obj) : bool :=
  truthy (js_and (prop o "source") (prop o "includes")).
Arguments authoritative : simpl never.

Definition cmd_truthy (c : option string) : bool :=
  match c with Some p => string_truthy p | None => false end.

(** ** First variant: the class with [spawnSync] (lines 1-385) *)

Module Sync.

(** The loop [for (let j = 0; j < k; j++)] of lines 149-154; [fuel] bounds the
    iterations, and [k] of them suffice. *)
Fixpoint inner_loop (fuel j k : nat) (si s0 : list ascii) : nat :=
  match fuel with
  | O => k
  | S fuel' =>
      if (j <? k)%nat then
        if bool_decide (si !! j ≠ s0 !! j) then j
        else inner_loop fuel' (S j) k si s0
      else k
  end.

(** One turn of [for (let i = 1; i < s.length; i++)]. *)
Definition outer_step (s0 : list ascii) (k : nat) (si : list ascii) : nat :=
  let k := Nat.min k (length si) in
  inner_loop k 0 k si s0.

(** Lines 145-158. [s[0]] of an empty array is [undefined], and reading its
    [length] throws. *)
Definition getLongestCommonSharedDirectory (s : list string) : Completion string :=
  match s with
  | [] => Throw (TypeError "Cannot read property 'length' of undefined")
  | s0 :: rest =>
      let k := fold_left (outer_step (chars s0)) (map chars rest)
                 (length (chars s0)) in
      let fullPath := substring0 (chars s0) (Z.of_nat k) in
      Normal (of_chars (substring0 fullPath (lastIndexOf "/" fullPath)))
  end.

Inductive EsdocResult : Type :=
  | EsdocTrue
  | EsdocError (e : ErrorValue).

Section Plugin.
Variable env : Env.
Variable options : Obj.

Definition isWindowsEnv : bool := starts_with_win (process_platform env).

Definition getESDocFiles : list string :=
  if isWindowsEnv then ["node_modules/.bin/jsdoc.cmd"]
  else ["node_modules/.bin/esdoc"; "node_modules/esdoc/esdoc.js"].

(** Lines 111-114: [fse.readJsonSync(filepath, { throws: false })] yields the
    parsed object, or [null] for a file that cannot be read or parsed. *)
Definition readConfigFile (filepath : string) : M (option Obj) :=
  (s <- get;;
   ret (match fs s !! filepath with
        | Some (JsonFile o) => Some o
        | _ => None
        end))%js.

(** Lines 238-244. *)
Definition remove_tmp (tmpFile : option string) : M unit :=
  (match tmpFile with
   | Some t =>
       if string_truthy t && negb (truthy (prop options "preserveTmpFile")) then
         s <- get;;
         if fs_existsSync (fs s) t then
           fs' <- lift (fs_unlinkSync (fs s) t);;
           modify (set_fs fs')
         else ret tt
       else ret tt
   | None => ret tt
   end)%js.

(** Lines 195-252. The [showOutput] block only prints [stdout] and is left
    out. *)
Definition Esdoc (cmd : option string) (esdocArgs : list string)
    (esdocConfigDir : string) (tmpFile : option string) : M EsdocResult :=
  (esdoc <- lift (spawnSync env cmd esdocArgs esdocConfigDir);;
   remove_tmp tmpFile;;
   match stderr esdoc with
   | None => throw (TypeError "Cannot read property 'length' of null")
   | Some e =>
       if (0 <? String.length e)%nat then
         console_error_log ("ERR toString " +:+ e);;
         ret (EsdocError (NewError (PLUGIN_NAME +:+ ":")))
       else ret EsdocTrue
   end)%js.

(** The variables [apply] sets up (lines 261-279). *)
Definition givenDirectory : string := as_string (prop options "cwd").
Definition esdocConfig0 : string :=
  path_resolve2 env givenDirectory (as_string (prop options "conf")).
Definition esdocConfigDir : string := path_dirname env esdocConfig0.

Definition apply (fs0 : gmap string File) : St :=
  mkSt fs0 [] [] None esdocConfig0 (Some ∅) [] None [] [].

(** Lines 290-305: the branch on [!cmd] has no [return]. *)
Definition locate : M unit :=
  (s <- get;;
   modify (set_cmd (lookupFile (path_join env) (path_resolve env)
                      (fs_existsSync (fs s)) getESDocFiles
                      [esdocConfigDir; givenDirectory; process_cwd env;
                       module_dirname env]));;
   s <- get;;
   if negb (cmd_truthy (cmd s))
   then callback (CbErr (NewError (PLUGIN_NAME +:+ ":")))
   else ret tt)%js.

(** Lines 306-314; the result tells whether the hook goes on ([false] after
    the [return] of the [catch]). *)
Definition read_config : M bool :=
  (s <- get;;
   if fs_existsSync (fs s) (esdocConfig s) then
     try_catch (o <- readConfigFile (esdocConfig s);;
                modify (set_obj o);;
                ret true)
               (fun exception => callback (CbErr (Caught exception));; ret false)
   else ret true)%js.

(** Lines 317-325. *)
Definition use_config_file (o : Obj) : M unit :=
  modify (set_obj (Some (spread o options))).

(** Lines 326-343. *)
Definition infer_from_bundles (o : Obj) (fileDependencies : list string) : M unit :=
  (modify (fun s => set_files (fold_left (collect true) fileDependencies (files s)) s);;
   s <- get;;
   source <- lift (getLongestCommonSharedDirectory (files s));;
   modify (set_obj (Some (spread (<["source" := JStr source]> o) options))))%js.

Definition resolve_config (fileDependencies : list string) : M unit :=
  (s <- get;;
   match obj s with
   | None => throw (TypeError "Cannot read property 'source' of null")
   | Some o =>
       if authoritative o then use_config_file o
       else infer_from_bundles o fileDependencies
   end)%js.

(** Lines 346-353. *)
Definition tmp_path (esdocConfig : string) : string :=
  let tmp := path_parse env esdocConfig in
  let tmpFilename := base tmp in
  let tmpFilepath := dir tmp in
  if ends_with_tmp tmpFilename then tmpFilepath +:+ "/" +:+ tmpFilename
  else tmpFilepath +:+ "/" +:+ tmpFilename +:+ ".tmp".

(** Lines 346-363. *)
Definition write_tmp : M unit :=
  (s <- get;;
   let t := tmp_path (esdocConfig s) in
   modify (set_tmpFile (Some t));;
   writeFileSync env t (obj s);;
   modify (set_esdocConfig t);;
   modify (set_esdocArgs ["-c"; t]))%js.

(** Lines 365-371: the [catch] returns without calling the continuation, and
    the value [Esdoc] returns is dropped. *)
Definition run_and_report : M unit :=
  (s <- get;;
   ran <- try_catch (Esdoc (cmd s) (esdocArgs s) esdocConfigDir (tmpFile s);;
                     ret true)
                    (fun err => ret false);;
   if ran : bool then callback CbNone else ret tt)%js.

(** The emit hook (lines 286-372). *)
Definition emit (fileDependencies : list string) : M unit :=
  (locate;;
   go <- read_config;;
   if go : bool then
     resolve_config fileDependencies;;
     write_tmp;;
     run_and_report
   else ret tt)%js.

End Plugin.
End Sync.

(** ** Second variant: module-level helpers and [spawn] (lines 387-674) *)

Module Async.

(** The loop of lines 447-455: its first statement calls [Math.Min], which is
    [undefined], so the first turn throws. *)
Definition outer_loop (rest : list (list ascii)) (k : option nat)
  : Completion (option nat) :=
  match rest with
  | [] => Normal k
  | _ :: _ => Throw (TypeError "Math.Min is not a function")
  end.

(** Lines 445-458. [s[0].Length] is [undefined] on a string, and
    [substring(0, undefined)] takes the whole string. *)
Definition getLongestCommonSharedDirectory (s : list string) : Completion string :=
  match s with
  | [] => Throw (TypeError "Cannot read property 'Length' of undefined")
  | s0 :: rest =>
      match outer_loop (map chars rest) None with
      | Throw e => Throw e
      | Normal k =>
          let fullPath :=
            match k with
            | Some n => substring0 (chars s0) (Z.of_nat n)
            | None => chars s0
            end in
          Normal (of_chars (substring0 fullPath (lastIndexOf "/" fullPath)))
      end
  end.

(** How the promise of [promiseEsdoc] stands once the child's events have
    been handled. *)
Inductive Settled : Type :=
  | Pending
  | Resolved
  | Rejected (e : ErrorValue).

Section Plugin.
Variable env : Env.
Variable options : Obj.

Definition isWindows : bool := starts_with_win (process_platform env).

Definition ESDOC_FILES : list string :=
  if isWindows then []
  else ["node_modules/.bin/esdoc"; "node_modules/esdoc/esdoc.js"].

(** Lines 466-469. [require(filepath)] picks its loader by the extension of
    the file name. A [.json] file is parsed as JSON; a [.node] file is loaded
    as a binary, which no file of the model is; any other file is compiled as
    JavaScript, and the JSON text of an object is not a program, unless the
    object is empty: [{}] is an empty block, and the module then exports an
    empty object. *)
Definition readConfigFile (filepath : string) : M Obj :=
  (s <- get;;
   match fs s !! filepath with
   | None => throw (ENOENT filepath)
   | Some OtherFile => throw (SyntaxError filepath)
   | Some (JsonFile o) =>
       match require_loader filepath with
       | JsonLoader => ret o
       | NodeLoader => throw (SyntaxError filepath)
       | JsLoader =>
           match size o with
           | O => ret o
           | S _ => throw (SyntaxError filepath)
           end
       end
   end)%js.

Definition givenDirectory : string := as_string (prop options "cwd").
Definition preserveTmpFile : bool := truthy (prop options "preserveTmpFile").
Definition esdocConfig0 : string :=
  path_resolve2 env givenDirectory (as_string (prop options "conf")).
Definition esdocConfigDir : string := path_dirname env esdocConfig0.

Definition apply (fs0 : gmap string File) : St :=
  mkSt fs0 [] [] None esdocConfig0 (Some ∅) [] None [] [].

(** Line 565. *)
Definition on_stderr_data (data : string) : M unit :=
  modify (fun s => set_esdocErrors (esdocErrors s ++ [data]) s).

(** Lines 566-580, the handler of ['close']. Its parameter is [closeCode];
    the rejection reads [code], which nothing declares, so evaluating the
    argument of [reject] throws before [reject] is called. *)
Definition on_close (tmpFile : option string) (closeCode : Z) : M Settled :=
  (match tmpFile with
   | Some t =>
       if string_truthy t && negb preserveTmpFile then
         s <- get;;
         fs' <- lift (fs_unlinkSync (fs s) t);;
         modify (set_fs fs')
       else ret tt
   | None => ret tt
   end;;
   s <- get;;
   if (0 <? length (esdocErrors s))%nat then
     modify (fun s => set_console_error (console_error s ++ esdocErrors s) s);;
     throw (ReferenceError "code")
   else ret Resolved)%js.

(** The handlers run as the child emits; the promise is settled by the
    handler of ['close']. The [showOutput] handler only prints. *)
Fixpoint deliver (events : list ProcEvent) (tmpFile : option string) : M Settled :=
  match events with
  | [] => ret Pending
  | StdoutData _ :: rest => deliver rest tmpFile
  | StderrData data :: rest =>
      bind (on_stderr_data data) (fun _ => deliver rest tmpFile)
  | Close closeCode :: _ => on_close tmpFile closeCode
  end.

(** Lines 542-581. An exception of the executor itself rejects the promise. *)
Definition promiseEsdoc (cmd : option string) (esdocArgs : list string)
    (esdocConfigDir : string) (tmpFile : option string) : M Settled :=
  fun s =>
    match spawn env cmd esdocArgs esdocConfigDir with
    | Throw e => (Normal (Rejected (Caught e)), s)
    | Normal events => deliver events tmpFile s
    end.

(** Lines 588-601. *)
Definition locate : M unit :=
  (s <- get;;
   modify (set_cmd (lookupFile (path_join env) (path_resolve env)
                      (fs_existsSync (fs s)) ESDOC_FILES
                      [esdocConfigDir; givenDirectory; process_cwd env;
                       module_dirname env]));;
   s <- get;;
   if negb (cmd_truthy (cmd s))
   then callback (CbErr (NewError (PLUGIN_NAME +:+ ":")))
   else ret tt)%js.

(** Lines 602-610. *)
Definition read_config : M bool :=
  (s <- get;;
   if fs_existsSync (fs s) (esdocConfig s) then
     try_catch (o <- readConfigFile (esdocConfig s);;
                modify (set_obj (Some o));;
                ret true)
               (fun exception => callback (CbErr (Caught exception));; ret false)
   else ret true)%js.

(** Lines 613-621. *)
Definition use_config_file (o : Obj) : M unit :=
  modify (set_obj (Some (spread o options))).

(** Lines 622-639. *)
Definition infer_from_bundles (o : Obj) (fileDependencies : list string) : M unit :=
  (modify (fun s => set_files (fold_left (collect false) fileDependencies (files s)) s);;
   s <- get;;
   source <- lift (getLongestCommonSharedDirectory (files s));;
   modify (set_obj (Some (spread (<["source" := JStr source]> o) options))))%js.

Definition resolve_config (fileDependencies : list string) : M unit :=
  (s <- get;;
   match obj s with
   | None => throw (TypeError "Cannot read property 'source' of null")
   | Some o =>
       if authoritative o then use_config_file o
       else infer_from_bundles o fileDependencies
   end)%js.

(** Line 642. *)
Definition tmp_path (esdocConfig : string) : string := esdocConfig +:+ ".tmp".

(** Lines 641-651. *)
Definition write_tmp : M unit :=
  (s <- get;;
   let t := tmp_path (esdocConfig s) in
   modify (set_tmpFile (Some t));;
   writeFileSync env t (obj s);;
   modify (set_esdocConfig t);;
   modify (set_esdocArgs ["-c"; t]))%js.

(** The emit hook (lines 583-654). *)
Definition emit (fileDependencies : list string) : M unit :=
  (locate;;
   go <- read_config;;
   if go : bool then
     resolve_config fileDependencies;;
     write_tmp;;
     callback CbNone
   else ret tt)%js.

(** The done hook (lines 657-670). *)
Definition done_hook : M Settled :=
  (s <- get;;
   promiseEsdoc (cmd s) (esdocArgs s) esdocConfigDir (tmpFile s))%js.

End Plugin.
End Async.

(** ** An environment to run the hooks in

    Paths that are already absolute and normalised: joining is concatenation
    around a separator and resolving leaves an absolute path as it is.  Both
    [spawnSync] and [spawn] refuse a command that is not a string, and every
    write succeeds. *)

Definition last_slash (p : string) : Z := lastIndexOf "/" (chars p).

Definition unix_dirname (p : string) : string :=
  let i := last_slash p in
  if (i <=? 0)%Z then (if (i =? 0)%Z then "/" else ".")
  else of_chars (take (Z.to_nat i) (chars p)).

Definition unix_parse (p : string) : ParsedPath :=
  let i := last_slash p in
  {| dir := if (i <? 0)%Z then "" else if (i =? 0)%Z then "/"
            else of_chars (take (Z.to_nat i) (chars p));
     base := of_chars (drop (Z.to_nat (i + 1)) (chars p)) |}.

Definition unix_resolve (p : string) : string :=
  match p with
  | String "/" _ => p
  | _ => "/proj/" +:+ p
  end.

Definition unix_env (sync : Completion SpawnSyncReturns)
    (async : Completion (list ProcEvent)) : Env :=
  {| path_join := fun d f => d +:+ "/" +:+ f;
     path_resolve := unix_resolve;
     path_resolve2 := fun d f => d +:+ "/" +:+ f;
     path_dirname := unix_dirname;
     path_parse := unix_parse;
     process_cwd := "/proj";
     module_dirname := "/proj/node_modules/esdoc-webpack-plugin";
     process_platform := "linux";
     spawnSync := fun cmd _ _ =>
       match cmd with
       | Some _ => sync
       | None => Throw (TypeError "The file argument must be of type string")
       end;
     spawn := fun cmd _ _ =>
       match cmd with
       | Some _ => async
       | None => Throw (TypeError "The file argument must be of type string")
       end;
     writeFileSync_error := fun _ => None |}.

(** ** Invariant of the resolver's loop, and the searched directories *)

(** What the outer loop maintains: the first [k] characters of the first path
    start every path seen so far, and no common start is longer. *)
Definition lcp_upto (s0 : list ascii) (seen : list (list ascii)) (k : nat) : Prop :=
  k <= length s0 /\
  Forall (fun q => take k s0 `prefix_of` q) seen /\
  (forall c, c `prefix_of` s0 -> Forall (fun q => c `prefix_of` q) seen ->
             length c <= k).

(** The directories both hooks search, in order. *)
Definition search_dirs (env : Env) (options : Obj) : list string :=
  [path_dirname env
     (path_resolve2 env (as_string (prop options "cwd"))
        (as_string (prop options "conf")));
   as_string (prop options "cwd"); process_cwd env; module_dirname env].

(** ** Sample projects *)

(** The tool is in the second directory under the first name, and in the
    first directory under the second name. *)
Definition tool_fs : gmap string File :=
  list_to_map [("/q/x/tool", OtherFile); ("/p/y/tool.js", OtherFile)].

(** A configuration file and instance options that both set [destination]. *)
Definition file_config : Obj :=
  list_to_map [("source", JStr "a"); ("includes", JArr [JStr "x"]);
               ("destination", JStr "d1")].

Definition instance_options : Obj :=
  merged_options (list_to_map [("destination", JStr "d2")]).

(** Both fields are there, and [source] is the empty string. *)
Definition empty_source_config : Obj :=
  list_to_map [("source", JStr ""); ("includes", JArr [JStr "x"])].

Definition usable_config : Obj :=
  list_to_map [("source", JStr "a"); ("includes", JArr [JStr "x"])].

Definition project_options : Obj :=
  merged_options (list_to_map [("cwd", JStr "/p")]).

(** A run of esdoc that prints nothing on [stderr] and exits with 0. *)
Definition clean_exit : Completion SpawnSyncReturns :=
  Normal {| stdout := Some "parse: /p/a/index.js"; stderr := Some "";
            status := Some 0%Z |}.

Definition node_env : Env := unix_env clean_exit (Normal [Close 0]).

(** A project with a usable configuration file and no esdoc installed. *)
Definition fs_without_esdoc : gmap string File :=
  list_to_map [("/p/.esdoc.json", JsonFile usable_config)].

Definition fs_with_esdoc : gmap string File :=
  <["/p/node_modules/.bin/esdoc" := OtherFile]> fs_without_esdoc.

(** A project with esdoc installed whose configuration file is not JSON. *)
Definition fs_broken_config : gmap string File :=
  list_to_map [("/p/node_modules/.bin/esdoc", OtherFile);
               ("/p/.esdoc.json", OtherFile)].

(** A project with esdoc installed and no configuration file. *)
Definition fs_no_config : gmap string File :=
  list_to_map [("/p/node_modules/.bin/esdoc", OtherFile)].

(** Options that name a configuration file ending in [.tmp]. *)
Definition tmp_conf_options : Obj :=
  merged_options
    (list_to_map [("cwd", JStr "/p"); ("conf", JStr ".esdoc.json.tmp")]).

(** Options that ask for the transient file to be removed. *)
Definition discard_options : Obj :=
  merged_options
    (list_to_map [("cwd", JStr "/p"); ("preserveTmpFile", JBool false)]).

(** The second variant's state after an emit that wrote the transient file,
    and the same state once something else has removed that file. *)
Definition written_state : St :=
  snd (Async.emit node_env discard_options []
         (Async.apply node_env discard_options fs_with_esdoc)).

Definition gone_state : St :=
  set_fs (delete "/p/.esdoc.json.tmp" (fs written_state)) written_state.

(** A run of esdoc that prints a warning on [stderr] and exits with 0. *)
Definition warning_env : Env :=
  unix_env
    (Normal {| stdout := Some "parse: /p/a/index.js";
               stderr := Some "warning: deprecated"; status := Some 0%Z |})
    (Normal [StdoutData "parse: /p/a/index.js";
             StderrData "warning: deprecated"; Close 0]).

(** ** Shorthands for what the hooks keep and search *)

(** The test of the [forEach] callback on one path: outside [node_modules]
    and named like an entry point. *)
Definition kept (filepath : string) : bool :=
  negb (in_node_modules filepath) && matches_index_js filepath.

(** What the validation lets through, property by property: a property that
    is missing, [undefined] or of the declared type. *)
Definition passes (opts : Obj) (entry : string * SchemaType) : Prop :=
  match opts !! fst entry with
  | None => True
  | Some v => v = JUndefined \/ has_type (snd entry) v = true
  end.

(** Options the validation accepts, and options it refuses. *)
Definition empty_cwd_opts : Obj := list_to_map [("cwd", JStr "")].

Definition numeric_conf_opts : Obj := list_to_map [("conf", JNum 5)].

(** The keys [defaultOptions] defines. *)
Definition default_keys : list string :=
  ["conf"; "cwd"; "preserveTmpFile"; "showOutput"; "source"; "destination";
   "excludes"; "plugins"].

(** An environment that differs in [process.platform] only. *)
Definition with_platform (platform : string) (env : Env) : Env :=
  {| path_join := path_join env;
     path_resolve := path_resolve env;
     path_resolve2 := path_resolve2 env;
     path_dirname := path_dirname env;
     path_parse := path_parse env;
     process_cwd := process_cwd env;
     module_dirname := module_dirname env;
     process_platform := platform;
     spawnSync := spawnSync env;
     spawn := spawn env;
     writeFileSync_error := writeFileSync_error env |}.

(** What a list of events holds: the chunks written to [stderr], in order,
    and whether the child closes. *)
Definition stderr_chunks (events : list ProcEvent) : list string :=
  flat_map (fun ev => match ev with StderrData d => [d] | _ => [] end) events.

Definition is_close (ev : ProcEvent) : bool :=
  match ev with Close _ => true | _ => false end.

(** ** Reporting the run time: [millisToMinutesAndSeconds] (lines 99-103 and
    477-481, the same text in both variants)

    The argument is the difference of two integer time stamps, a whole number
    of milliseconds.  For such an argument below 2^52 the double-precision
    operations of the source are exact or round to the value computed here:
    [millis % 60000] and [Math.floor(millis / 60000)] are the integer
    remainder and quotient, and [(r / 1000).toFixed(0)] is [r / 1000] rounded
    to the nearest integer, a half going up.  [toFixed] yields a string, which
    the comparison with [10] reads back as a number. *)

(** The arguments for which the model is the source's arithmetic. *)
Definition exact_millis (millis : N) : bool := (millis <? 2 ^ 52)%N.

Definition number_to_string (n : N) : string :=
  NilZero.string_of_uint (N.to_uint n).

(** [(r / 1000).toFixed(0)] as a number, for a whole [r]. *)
Definition thousandths_toFixed0 (r : N) : N := ((r + 500) / 1000)%N.

Definition millisToMinutesAndSeconds (millis : N) : string :=
  let minutes := (millis / 60000)%N in
  let seconds := thousandths_toFixed0 (millis mod 60000)%N in
  number_to_string minutes +:+ ":" +:+
  (if (seconds <? 10)%N then "0" else "") +:+ number_to_string seconds.

(** * Properties *)

Ltac run_monad :=
  unfold bind, get, modify, ret, lift, throw, try_catch, callback,
    console_error_log; simpl.

(** ** Executable Locator *)

Lemma find_app {A : Type} (f : A -> bool) (l1 l2 : list A) :
  find f (l1 ++ l2) =
  match find f l1 with Some x => Some x | None => find f l2 end.
Proof.
  induction l1 as [|x l1 IH]; simpl; [reflexivity|].
  destruct (f x); [reflexivity | exact IH].
Qed.

Lemma find_Some_first {A : Type} (f : A -> bool) (l : list A) (x : A) :
  find f l = Some x ->
  exists before after,
    l = before ++ x :: after /\ f x = true /\
    Forall (fun y => f y = false) before.
Proof.
  induction l as [|y l IH]; simpl; [discriminate|].
  destruct (f y) eqn:E.
  - intros [= ->]. exists [], l. repeat split; [exact E | constructor].
  - intros H. destruct (IH H) as (before & after & -> & Hx & Hb).
    exists (y :: before), after. repeat split; [exact Hx | now constructor].
Qed.

Section LookupFileFacts.
Variable path_join : string -> string -> string.
Variable path_resolve : string -> string.
Variable existsSync : string -> bool.
Hypothesis resolve_nonempty : forall p, path_resolve p <> "".

Lemma resolve_truthy p : string_truthy (path_resolve p) = true.
Proof.
  destruct (path_resolve p) eqn:E; [|reflexivity].
  exfalso. exact (resolve_nonempty p E).
Qed.

Lemma lookup_dirs_find filename dirs found :
  array_some (lookup_dir path_join path_resolve existsSync filename) dirs found =
  match find existsSync
          (map (fun d => path_resolve (path_join d filename)) dirs) with
  | Some p => (true, Some p)
  | None => (false, found)
  end.
Proof.
  induction dirs as [|d ds IH]; simpl; [reflexivity|].
  unfold lookup_dir at 1.
  destruct (existsSync (path_resolve (path_join d filename))) eqn:E.
  - now rewrite resolve_truthy.
  - exact IH.
Qed.

Lemma lookup_files_find files dirs found :
  array_some (fun filename =>
                array_some (lookup_dir path_join path_resolve existsSync filename) dirs)
             files found =
  match find existsSync (candidates path_join path_resolve files dirs) with
  | Some p => (true, Some p)
  | None => (false, found)
  end.
Proof.
  induction files as [|f rest IH]; simpl; [reflexivity|].
  rewrite lookup_dirs_find, find_app.
  destruct (find existsSync
              (map (fun d => path_resolve (path_join d f)) dirs)) as [p|];
    [reflexivity | exact IH].
Qed.

Lemma lookupFile_find files dirs :
  lookupFile path_join path_resolve existsSync files dirs =
  find existsSync (candidates path_join path_resolve files dirs).
Proof.
  unfold lookupFile. rewrite lookup_files_find.
  now destruct (find existsSync _).
Qed.

Lemma candidates_In files dirs p :
  In p (candidates path_join path_resolve files dirs) <->
  exists f d, In f files /\ In d dirs /\ p = path_resolve (path_join d f).
Proof.
  unfold candidates. rewrite in_flat_map. split.
  - intros (f & Hf & Hp). apply in_map_iff in Hp as (d & <- & Hd). eauto.
  - intros (f & d & Hf & Hd & ->). exists f. split; [exact Hf|].
    apply in_map_iff. eauto.
Qed.
End LookupFileFacts.

(** C4. [lookupFile] scans the candidates filename by filename, every
    directory for one filename before the next filename, and returns the first
    resolved [join (directory, filename)] that exists; it returns [null] exactly
    when no combination exists. The paths that [path.resolve] returns are never
    empty. *)
Theorem lookupFile_first_existing
    (path_join : string -> string -> string) (path_resolve : string -> string)
    (existsSync : string -> bool) (files dirs : list string)
    (resolve_nonempty : forall p, path_resolve p <> "") :
  let all := candidates path_join path_resolve files dirs in
  let result := lookupFile path_join path_resolve existsSync files dirs in
  (forall f rest,
      candidates path_join path_resolve (f :: rest) dirs =
      map (fun d => path_resolve (path_join d f)) dirs
      ++ candidates path_join path_resolve rest dirs) /\
  result = find existsSync all /\
  (forall p, result = Some p ->
     exists before after,
       all = before ++ p :: after /\ existsSync p = true /\
       Forall (fun q => existsSync q = false) before) /\
  (result = None <->
   forall f d, In f files -> In d dirs ->
               existsSync (path_resolve (path_join d f)) = false).
Proof.
  intros all result.
  assert (Hfind : result = find existsSync all)
    by (apply lookupFile_find; exact resolve_nonempty).
  split; [reflexivity|]. split; [exact Hfind|]. split.
  - intros p Hp. apply find_Some_first. now rewrite <- Hfind.
  - rewrite Hfind. split.
    + intros Hnone f d Hf Hd.
      apply (find_none _ _ Hnone). apply candidates_In. eauto.
    + intros Hall. destruct (find existsSync all) as [p|] eqn:E; [|reflexivity].
      apply find_some in E as [Hin Hex].
      apply candidates_In in Hin as (f & d & Hf & Hd & ->).
      rewrite (Hall f d Hf Hd) in Hex. discriminate.
Qed.

Lemma lookupFile_first_existing_witness :
  (forall p, unix_resolve p <> "") /\
  lookupFile (fun d f => d +:+ "/" +:+ f) unix_resolve (fs_existsSync tool_fs)
    ["x/tool"; "y/tool.js"] ["/p"; "/q"] = Some "/q/x/tool".
Proof.
  assert (H : forall p, unix_resolve p <> "").
  { intros [|a p]; [discriminate|].
    destruct a as [[] [] [] [] [] [] [] []]; discriminate. }
  split; [exact H|].
  destruct (lookupFile_first_existing (fun d f => d +:+ "/" +:+ f) unix_resolve
              (fs_existsSync tool_fs) ["x/tool"; "y/tool.js"] ["/p"; "/q"] H)
    as (_ & Hfind & _).
  rewrite Hfind. vm_compute. reflexivity.
Defined.

(** ** Configuration merge *)

Lemma spread_lookup_right (a b : Obj) (k : string) (v : JsValue) :
  b !! k = Some v -> spread a b !! k = Some v.
Proof. intros H. unfold spread. now apply lookup_union_Some_l. Qed.

Lemma spread_lookup_left (a b : Obj) (k : string) :
  b !! k = None -> spread a b !! k = a !! k.
Proof. intros H. unfold spread. now apply lookup_union_r. Qed.

(** C7. Whatever the discovered or inferred configuration holds, a key of the
    instance options keeps the option's value in the merged configuration:
    in the merge itself, and in the object that either branch of either emit
    hook leaves in [obj]. *)
Theorem options_override_config
    (o options : Obj) (k : string) (v : JsValue)
    (Hoption : options !! k = Some v) :
  spread o options !! k = Some v /\
  (forall s, exists e,
      obj (snd (Sync.use_config_file options o s)) = Some e /\ e !! k = Some v) /\
  (forall s, exists e,
      obj (snd (Async.use_config_file options o s)) = Some e /\ e !! k = Some v) /\
  (forall deps s s',
      Sync.infer_from_bundles options o deps s = (Normal tt, s') ->
      exists e, obj s' = Some e /\ e !! k = Some v) /\
  (forall deps s s',
      Async.infer_from_bundles options o deps s = (Normal tt, s') ->
      exists e, obj s' = Some e /\ e !! k = Some v).
Proof.
  split; [now apply spread_lookup_right|].
  split; [intros s; eexists; split; [reflexivity | now apply spread_lookup_right]|].
  split; [intros s; eexists; split; [reflexivity | now apply spread_lookup_right]|].
  split.
  - intros deps s s'. unfold Sync.infer_from_bundles, bind, modify, get, lift.
    destruct (Sync.getLongestCommonSharedDirectory _) as [src|e]; [|discriminate].
    intros [= <-]. eexists. split; [reflexivity | now apply spread_lookup_right].
  - intros deps s s'. unfold Async.infer_from_bundles, bind, modify, get, lift.
    destruct (Async.getLongestCommonSharedDirectory _) as [src|e]; [|discriminate].
    intros [= <-]. eexists. split; [reflexivity | now apply spread_lookup_right].
Qed.

Lemma options_override_config_witness :
  instance_options !! "destination" = Some (JStr "d2") /\
  file_config !! "destination" = Some (JStr "d1") /\
  spread file_config instance_options !! "destination" = Some (JStr "d2").
Proof.
  assert (H : instance_options !! "destination" = Some (JStr "d2"))
    by (vm_compute; reflexivity).
  split; [exact H|]. split; [vm_compute; reflexivity|].
  exact (proj1 (options_override_config file_config instance_options
                  "destination" (JStr "d2") H)).
Defined.

(** ** Authoritativeness of the parsed configuration *)

Lemma authoritative_andb (o : Obj) :
  authoritative o = truthy (prop o "source") && truthy (prop o "includes").
Proof.
  unfold authoritative, js_and.
  destruct (truthy (prop o "source")) eqn:E; simpl; [reflexivity | exact E].
Qed.

(** C10. The configuration object is used as it is exactly when [source] and
    [includes] are both truthy. An empty [source], or an [includes] that is
    [null], [0] or [false], makes it unusable although the field is there, and
    both emit hooks then infer the configuration from the dependency set. *)
Theorem authoritative_exactly_when_truthy (o : Obj) :
  (authoritative o = true <->
   truthy (prop o "source") = true /\ truthy (prop o "includes") = true) /\
  (o !! "source" = Some (JStr "") -> authoritative o = false) /\
  (forall v, v = JNull \/ v = JNum 0 \/ v = JBool false ->
             o !! "includes" = Some v -> authoritative o = false) /\
  (forall options deps s, obj s = Some o ->
     Sync.resolve_config options deps s =
       (if authoritative o then Sync.use_config_file options o s
        else Sync.infer_from_bundles options o deps s) /\
     Async.resolve_config options deps s =
       (if authoritative o then Async.use_config_file options o s
        else Async.infer_from_bundles options o deps s)).
Proof.
  split; [rewrite authoritative_andb; apply andb_true_iff|]. split.
  - intros H. rewrite authoritative_andb. unfold prop. rewrite H. reflexivity.
  - split.
    + intros v Hv H. rewrite authoritative_andb. unfold prop at 2. rewrite H.
      simpl. destruct Hv as [-> | [-> | ->]]; apply andb_false_r.
    + intros options deps s Hs.
      unfold Sync.resolve_config, Async.resolve_config, bind, get.
      rewrite Hs. destruct (authoritative o); split; reflexivity.
Qed.

Lemma authoritative_exactly_when_truthy_witness :
  empty_source_config !! "source" = Some (JStr "") /\
  authoritative empty_source_config = false.
Proof.
  assert (H : empty_source_config !! "source" = Some (JStr ""))
    by (vm_compute; reflexivity).
  split; [exact H|].
  exact (proj1 (proj2 (authoritative_exactly_when_truthy empty_source_config)) H).
Defined.

(** ** Common-Prefix Resolver *)

(** The inner loop stops at the first index below [k] where the two strings
    differ, and leaves [k] alone when there is none. *)
Lemma inner_loop_spec (si s0 : list ascii) (fuel j k : nat) :
  k <= j + fuel -> j <= k ->
  (forall i, i < j -> si !! i = s0 !! i) ->
  let r := Sync.inner_loop fuel j k si s0 in
  j <= r <= k /\
  (forall i, i < r -> si !! i = s0 !! i) /\
  (r < k -> si !! r <> s0 !! r).
Proof.
  revert j. induction fuel as [|fuel IH]; intros j Hfuel Hjk Hagree; simpl.
  - assert (j = k) as -> by lia. repeat split; [lia | lia | exact Hagree | lia].
  - destruct (Nat.ltb_spec j k) as [Hlt|Hge].
    + case_bool_decide as Hne.
      * repeat split; [lia | lia | exact Hagree | intros _; exact Hne].
      * assert (Heq : si !! j = s0 !! j)
          by (destruct (decide (si !! j = s0 !! j)); tauto).
        destruct (IH (S j)) as (Hr & Hag & Hstop); [lia | lia | |].
        { intros i Hi. destruct (decide (i = j)) as [->|]; [exact Heq|].
          apply Hagree. lia. }
        repeat split; [lia | lia | exact Hag | exact Hstop].
    + assert (j = k) as -> by lia.
      repeat split; [lia | lia | exact Hagree | lia].
Qed.

Lemma take_agree (a b : list ascii) (n : nat) :
  (forall i, i < n -> a !! i = b !! i) -> take n a = take n b.
Proof.
  intros H. apply list_eq. intros i.
  destruct (Nat.lt_ge_cases i n) as [Hlt|Hge].
  - rewrite !lookup_take_lt by exact Hlt. now apply H.
  - rewrite !lookup_take_ge by exact Hge. reflexivity.
Qed.

Lemma prefix_is_take (c l : list ascii) : c `prefix_of` l -> c = take (length c) l.
Proof. intros [t ->]. now rewrite take_app_length. Qed.

Lemma take_prefix_le (l : list ascii) (n m : nat) :
  n <= m -> take n l `prefix_of` take m l.
Proof.
  intros H. replace (take n l) with (take n (take m l)).
  - apply prefix_take.
  - rewrite take_take. f_equal. lia.
Qed.

Lemma outer_step_lcp (s0 si : list ascii) (seen : list (list ascii)) (k : nat) :
  lcp_upto s0 seen k -> lcp_upto s0 (seen ++ [si]) (Sync.outer_step s0 k si).
Proof.
  intros (Hk & Hpre & Hmax). unfold Sync.outer_step.
  set (k1 := Nat.min k (length si)).
  destruct (inner_loop_spec si s0 k1 0 k1) as (Hr & Hag & Hstop);
    [lia | lia | intros i Hi; lia |].
  set (r := Sync.inner_loop k1 0 k1 si s0) in *.
  assert (Hrk : r <= k) by lia.
  split; [lia|]. split.
  - apply Forall_app. split.
    + eapply Forall_impl; [exact Hpre|]. intros q Hq. simpl in Hq.
      etransitivity; [apply take_prefix_le; exact Hrk | exact Hq].
    + constructor; [|constructor].
      rewrite <- (take_agree si s0 r Hag). apply prefix_take.
  - intros c Hc0 Hall. apply Forall_app in Hall as [Hseen Hsi].
    apply Forall_inv in Hsi.
    pose proof (Hmax c Hc0 Hseen) as Hck.
    pose proof (prefix_length _ _ Hsi) as Hcsi.
    destruct (Nat.le_gt_cases (length c) r) as [Hle|Hgt]; [exact Hle|].
    exfalso. apply Hstop; [lia|].
    destruct (lookup_lt_is_Some_2 c r Hgt) as [x Hx].
    rewrite (prefix_lookup_Some _ _ _ _ Hx Hsi).
    now rewrite (prefix_lookup_Some _ _ _ _ Hx Hc0).
Qed.

Lemma outer_loop_lcp (s0 : list ascii) (rest seen : list (list ascii)) (k : nat) :
  lcp_upto s0 seen k ->
  lcp_upto s0 (seen ++ rest) (fold_left (Sync.outer_step s0) rest k).
Proof.
  revert seen k. induction rest as [|si rest IH]; intros seen k H; simpl.
  - now rewrite app_nil_r.
  - replace (seen ++ si :: rest) with ((seen ++ [si]) ++ rest)
      by now rewrite <- app_assoc.
    apply IH. now apply outer_step_lcp.
Qed.

Lemma lastIndexOf_bounds (c : ascii) (s : list ascii) :
  (-1 <= lastIndexOf c s < Z.of_nat (length s))%Z.
Proof.
  induction s as [|a r IH]; simpl; [lia|].
  destruct (Z.leb_spec 0 (lastIndexOf c r)); [lia|].
  destruct (Ascii.eqb a c); lia.
Qed.

(** [lastIndexOf] finds the last occurrence, or answers -1 when there is
    none. *)
Lemma lastIndexOf_spec (c : ascii) (s : list ascii) :
  ((lastIndexOf c s = -1)%Z /\ c ∉ s) \/
  (exists t, (0 <= lastIndexOf c s)%Z /\
             s = take (Z.to_nat (lastIndexOf c s)) s ++ c :: t /\ c ∉ t).
Proof.
  induction s as [|a r IH]; simpl.
  - left. split; [reflexivity | apply not_elem_of_nil].
  - pose proof (lastIndexOf_bounds c r) as Hb.
    destruct (Z.leb_spec 0 (lastIndexOf c r)) as [Hpos|Hneg].
    + destruct IH as [[Hm _]|(t & _ & Hs & Ht)]; [lia|].
      right. exists t. split; [lia|]. split; [|exact Ht].
      replace (Z.to_nat (lastIndexOf c r + 1)) with (S (Z.to_nat (lastIndexOf c r)))
        by lia.
      simpl. now rewrite <- Hs.
    + destruct IH as [[_ Hnot]|(t & Hp & _)]; [|lia].
      destruct (Ascii.eqb_spec a c) as [->|Hne].
      * right. exists r. split; [lia|]. split; [reflexivity | exact Hnot].
      * left. split; [reflexivity|].
        intros Hin. apply elem_of_cons in Hin as [->|Hin]; [now apply Hne | now apply Hnot].
Qed.

Lemma substring0_of_nat (l : list ascii) (n : nat) :
  substring0 l (Z.of_nat n) = take n l.
Proof. unfold substring0. now rewrite Nat2Z.id. Qed.

(** The first variant computes the longest common start of all the paths and
    cuts it before its last separator (the empty string when it has none). *)
Theorem shared_directory_is_truncated_lcp (s0 : string) (rest : list string) :
  exists lcp d : list ascii,
    Sync.getLongestCommonSharedDirectory (s0 :: rest) = Normal (of_chars d) /\
    Forall (fun q => lcp `prefix_of` chars q) (s0 :: rest) /\
    (forall c, Forall (fun q => c `prefix_of` chars q) (s0 :: rest) ->
               c `prefix_of` lcp) /\
    ((exists t, lcp = d ++ sep :: t /\ (sep ∉ t)) \/ ((sep ∉ lcp) /\ d = [])).
Proof.
  set (k := fold_left (Sync.outer_step (chars s0)) (map chars rest)
              (length (chars s0))).
  assert (Hinv : lcp_upto (chars s0) (map chars rest) k).
  { apply (outer_loop_lcp (chars s0) (map chars rest) []).
    split; [lia|]. split; [constructor|].
    intros c Hc _. now apply prefix_length. }
  destruct Hinv as (Hk & Hpre & Hmax).
  exists (take k (chars s0)).
  exists (substring0 (take k (chars s0))
            (lastIndexOf "/" (take k (chars s0)))).
  split; [simpl; now rewrite !substring0_of_nat|].
  split.
  { constructor; [apply prefix_take|].
    exact (proj1 (List.Forall_map chars _ rest) Hpre). }
  split.
  - intros c Hall. apply Forall_cons in Hall as [Hc0 Hrest].
    rewrite (prefix_is_take c (chars s0) Hc0).
    apply take_prefix_le, Hmax; [exact Hc0|].
    exact (proj2 (List.Forall_map chars _ rest) Hrest).
  - unfold substring0.
    destruct (lastIndexOf_spec "/" (take k (chars s0)))
      as [[Hm Hnot]|(t & Hpos & Hsplit & Ht)].
    + right. split; [exact Hnot|]. now rewrite Hm.
    + left. exists t. split; [exact Hsplit | exact Ht].
Qed.

(** The result of the first variant followed by a separator starts every
    path: it names a directory of each of them, never a part of a name. *)
Corollary shared_directory_is_a_directory (s0 : string) (rest : list string) :
  exists d : list ascii,
    Sync.getLongestCommonSharedDirectory (s0 :: rest) = Normal (of_chars d) /\
    (d = [] \/ Forall (fun q => d ++ [sep] `prefix_of` chars q) (s0 :: rest)).
Proof.
  destruct (shared_directory_is_truncated_lcp s0 rest)
    as (lcp & d & Hres & Hall & _ & [(t & -> & _)|[_ ->]]).
  - exists d. split; [exact Hres|]. right.
    eapply Forall_impl; [exact Hall|]. intros q Hq. simpl in Hq.
    etransitivity; [|exact Hq]. exists t. now rewrite <- app_assoc.
  - exists []. split; [exact Hres | now left].
Qed.

Example shared_directory_example :
  Sync.getLongestCommonSharedDirectory
    ["/a/b/index.js"; "/a/b/c/index.js"; "/a/bb/index.js"] = Normal "/a".
Proof. vm_compute. reflexivity. Qed.

Example shared_directory_nothing_common :
  Sync.getLongestCommonSharedDirectory ["/a/index.js"; "/b/index.js"] = Normal "".
Proof. vm_compute. reflexivity. Qed.

(** The second variant throws for every list of two paths or more, and for
    one path returns that path's directory. *)
Lemma second_variant_two_paths (s0 s1 : string) (rest : list string) :
  Async.getLongestCommonSharedDirectory (s0 :: s1 :: rest) =
  Throw (TypeError "Math.Min is not a function").
Proof. reflexivity. Qed.

Lemma second_variant_one_path (s0 : string) :
  Async.getLongestCommonSharedDirectory [s0] =
  Normal (of_chars (substring0 (chars s0) (lastIndexOf "/" (chars s0)))).
Proof. reflexivity. Qed.

(** C3. On the three paths of the example the second variant's
    [getLongestCommonSharedDirectory] throws at [Math.Min], where the first
    variant returns ["/a"]. *)
Theorem second_variant_resolver_throws :
  Async.getLongestCommonSharedDirectory
    ["/a/b/index.js"; "/a/b/c/index.js"; "/a/bb/index.js"] =
    Throw (TypeError "Math.Min is not a function") /\
  Sync.getLongestCommonSharedDirectory
    ["/a/b/index.js"; "/a/b/c/index.js"; "/a/bb/index.js"] = Normal "/a".
Proof. split; vm_compute; reflexivity. Qed.

(** ** The emit hook and the continuation *)

(** Second variant: when the executable is not found, the configuration file
    is a usable [.json] file and the write succeeds, the continuation is
    called with an error and then again with nothing. *)
Lemma second_variant_not_found (env : Env) (options o : Obj)
    (deps : list string) (s : St) :
  lookupFile (path_join env) (path_resolve env) (fs_existsSync (fs s))
    (Async.ESDOC_FILES env) (search_dirs env options) = None ->
  fs s !! esdocConfig s = Some (JsonFile o) ->
  require_loader (esdocConfig s) = JsonLoader ->
  authoritative o = true ->
  writeFileSync_error env (Async.tmp_path (esdocConfig s)) = None ->
  exists s',
    Async.emit env options deps s = (Normal tt, s') /\
    calls s' = calls s ++ [CbErr (NewError "ESDocPlugin:"); CbNone].
Proof.
  intros Hcmd Hfile Hjson Hauth Hwrite.
  unfold Async.emit, Async.locate, Async.read_config, Async.readConfigFile,
    Async.resolve_config, Async.use_config_file, Async.write_tmp, writeFileSync.
  change [Async.esdocConfigDir env options; Async.givenDirectory options;
          process_cwd env; module_dirname env] with (search_dirs env options).
  run_monad. rewrite Hcmd. simpl.
  unfold fs_existsSync. simpl. rewrite !Hfile. simpl.
  rewrite ?Hfile, Hjson. simpl. rewrite Hauth. simpl. rewrite Hwrite. simpl.
  eexists. split; [reflexivity|]. simpl. now rewrite <- app_assoc.
Qed.

(** C1. In the second variant's emit hook a cycle that does not find the
    executable calls the continuation twice, first with the error and then
    with no argument: the branch on [!cmd] does not return. *)
Theorem emit_not_found_calls_back_twice :
  let s := Async.apply node_env project_options fs_without_esdoc in
  let r := Async.emit node_env project_options [] s in
  fst r = Normal tt /\
  cmd (snd r) = None /\
  calls (snd r) = [CbErr (NewError "ESDocPlugin:"); CbNone].
Proof. vm_compute. repeat split; reflexivity. Qed.

(** First variant, same input: [spawnSync] refuses the missing command, the
    [catch] returns, and only the error reaches the continuation. *)
Example first_variant_not_found :
  let s := Sync.apply node_env project_options fs_without_esdoc in
  let r := Sync.emit node_env project_options [] s in
  fst r = Normal tt /\ calls (snd r) = [CbErr (NewError "ESDocPlugin:")].
Proof. vm_compute. split; reflexivity. Qed.

(** First variant: a process that could not be started has [stderr] null;
    reading its length throws inside [Esdoc], the [catch] returns, and the
    continuation is never called. *)
Example first_variant_spawn_failure :
  let env := unix_env (Normal {| stdout := None; stderr := None; status := None |})
               (Normal []) in
  let s := Sync.apply env project_options fs_with_esdoc in
  let r := Sync.emit env project_options [] s in
  fst r = Normal tt /\ calls (snd r) = [].
Proof. vm_compute. split; reflexivity. Qed.

(** Both variants: a cycle in which everything succeeds calls the
    continuation once, with no argument. *)
Example emit_success_calls_back_once :
  let s1 := Sync.apply node_env project_options fs_with_esdoc in
  let s2 := Async.apply node_env project_options fs_with_esdoc in
  calls (snd (Sync.emit node_env project_options [] s1)) = [CbNone] /\
  calls (snd (Async.emit node_env project_options [] s2)) = [CbNone].
Proof. vm_compute. split; reflexivity. Qed.

(** ** A configuration file that cannot be parsed *)

(** First variant: [readJsonSync] with [throws: false] answers [null], the
    [catch] is never entered, and reading [obj.source] throws out of the hook
    before the continuation is called. *)
Lemma first_variant_unparsable (env : Env) (options : Obj)
    (deps : list string) (s : St) (c : string) :
  lookupFile (path_join env) (path_resolve env) (fs_existsSync (fs s))
    (Sync.getESDocFiles env) (search_dirs env options) = Some c ->
  string_truthy c = true ->
  fs s !! esdocConfig s = Some OtherFile ->
  Sync.emit env options deps s =
  (Throw (TypeError "Cannot read property 'source' of null"),
   set_obj None (set_cmd (Some c) s)).
Proof.
  intros Hcmd Hc Hfile.
  unfold Sync.emit, Sync.locate, Sync.read_config, Sync.readConfigFile,
    Sync.resolve_config.
  change [Sync.esdocConfigDir env options; Sync.givenDirectory options;
          process_cwd env; module_dirname env] with (search_dirs env options).
  run_monad. rewrite Hcmd. simpl. rewrite Hc. simpl.
  unfold fs_existsSync. simpl. rewrite !Hfile. simpl.
  rewrite ?Hfile. reflexivity.
Qed.

(** Second variant: [require] throws, the [catch] hands the exception to the
    continuation and returns; nothing is inferred and no file is written. *)
Lemma second_variant_unparsable (env : Env) (options : Obj)
    (deps : list string) (s : St) (c : string) :
  lookupFile (path_join env) (path_resolve env) (fs_existsSync (fs s))
    (Async.ESDOC_FILES env) (search_dirs env options) = Some c ->
  string_truthy c = true ->
  fs s !! esdocConfig s = Some OtherFile ->
  Async.emit env options deps s =
  (Normal tt,
   set_calls (calls s ++ [CbErr (Caught (SyntaxError (esdocConfig s)))])
     (set_cmd (Some c) s)).
Proof.
  intros Hcmd Hc Hfile.
  unfold Async.emit, Async.locate, Async.read_config, Async.readConfigFile.
  change [Async.esdocConfigDir env options; Async.givenDirectory options;
          process_cwd env; module_dirname env] with (search_dirs env options).
  run_monad. rewrite Hcmd. simpl. rewrite Hc. simpl.
  unfold fs_existsSync. simpl. rewrite !Hfile. simpl.
  rewrite ?Hfile. reflexivity.
Qed.

(** C5. With a configuration file that exists and does not parse, the first
    variant's emit hook ends in a [TypeError] and never calls the
    continuation; the second variant calls it once, with the parse error.
    Neither collects files for inference. *)
Theorem unparsable_config_skips_callback :
  let s1 := Sync.apply node_env project_options fs_broken_config in
  let r1 := Sync.emit node_env project_options ["/p/src/index.js"] s1 in
  let s2 := Async.apply node_env project_options fs_broken_config in
  let r2 := Async.emit node_env project_options ["/p/src/index.js"] s2 in
  (fst r1 = Throw (TypeError "Cannot read property 'source' of null") /\
   calls (snd r1) = [] /\ files (snd r1) = []) /\
  (fst r2 = Normal tt /\
   calls (snd r2) = [CbErr (Caught (SyntaxError "/p/.esdoc.json"))] /\
   files (snd r2) = []).
Proof. vm_compute. repeat split; reflexivity. Qed.

(** ** An empty filtered dependency set *)

(** Nothing stands between the filter and the resolver: when no path is
    kept, the resolver is called on the empty list and throws. *)
Lemma first_variant_infers_from_nothing (options o : Obj)
    (deps : list string) (s : St) :
  obj s = Some o -> authoritative o = false ->
  fold_left (collect true) deps (files s) = [] ->
  Sync.resolve_config options deps s =
  (Throw (TypeError "Cannot read property 'length' of undefined"),
   set_files [] s).
Proof.
  intros Hobj Hauth Hfiles.
  unfold Sync.resolve_config, Sync.infer_from_bundles. run_monad.
  rewrite Hobj, Hauth. simpl. rewrite Hfiles. reflexivity.
Qed.

Lemma second_variant_infers_from_nothing (options o : Obj)
    (deps : list string) (s : St) :
  obj s = Some o -> authoritative o = false ->
  fold_left (collect false) deps (files s) = [] ->
  Async.resolve_config options deps s =
  (Throw (TypeError "Cannot read property 'Length' of undefined"),
   set_files [] s).
Proof.
  intros Hobj Hauth Hfiles.
  unfold Async.resolve_config, Async.infer_from_bundles. run_monad.
  rewrite Hobj, Hauth. simpl. rewrite Hfiles. reflexivity.
Qed.

(** C6. With no configuration file and a dependency set of which the filter
    keeps nothing, both emit hooks call the resolver on the empty list; its
    [TypeError] leaves the hook, and the continuation is not called. *)
Theorem empty_dependency_set_reaches_resolver :
  let deps := ["/proj/node_modules/x/index.js"; "/proj/src/app.js"] in
  let s1 := Sync.apply node_env project_options fs_no_config in
  let r1 := Sync.emit node_env project_options deps s1 in
  let s2 := Async.apply node_env project_options fs_no_config in
  let r2 := Async.emit node_env project_options deps s2 in
  fold_left (collect true) deps [] = [] /\
  Sync.getLongestCommonSharedDirectory [] =
    Throw (TypeError "Cannot read property 'length' of undefined") /\
  (fst r1 = Throw (TypeError "Cannot read property 'length' of undefined") /\
   calls (snd r1) = [] /\ tmpFile (snd r1) = None) /\
  (fst r2 = Throw (TypeError "Cannot read property 'Length' of undefined") /\
   calls (snd r2) = [] /\ tmpFile (snd r2) = None).
Proof. vm_compute. repeat split; reflexivity. Qed.

(** ** The transient file's name *)

Lemma append_assoc (a b c : string) : (a +:+ b) +:+ c = a +:+ (b +:+ c).
Proof.
  induction a as [|x a IH]; [reflexivity|].
  change (String x ((a +:+ b) +:+ c) = String x (a +:+ (b +:+ c))).
  f_equal. exact IH.
Qed.

(** First variant: when [path.parse] splits the configuration path into a
    directory and a name around a separator, the transient path is the
    configuration path itself if the name ends in [.tmp], and the
    configuration path followed by [.tmp] otherwise. *)
Lemma first_variant_tmp_path (env : Env) (esdocConfig : string) :
  let tmp := path_parse env esdocConfig in
  esdocConfig = dir tmp +:+ "/" +:+ base tmp ->
  Sync.tmp_path env esdocConfig =
  if ends_with_tmp (base tmp) then esdocConfig else esdocConfig +:+ ".tmp".
Proof.
  intros tmp Hsplit. unfold Sync.tmp_path. fold tmp.
  destruct (ends_with_tmp (base tmp)); [now rewrite <- Hsplit|].
  transitivity ((dir tmp +:+ "/" +:+ base tmp) +:+ ".tmp").
  - now rewrite !append_assoc.
  - now rewrite <- Hsplit.
Qed.

(** A configuration file in the root directory gets a doubled separator. *)
Example first_variant_tmp_path_in_root :
  Sync.tmp_path node_env "/.esdoc.json" = "//.esdoc.json.tmp".
Proof. vm_compute. reflexivity. Qed.

(** Second variant: [.tmp] is appended whatever the name ends in. *)
Lemma second_variant_tmp_path (esdocConfig : string) :
  Async.tmp_path esdocConfig = esdocConfig +:+ ".tmp".
Proof. reflexivity. Qed.

(** C8. For a configuration path that already ends in [.tmp] the second
    variant appends [.tmp] once more, where the first variant reuses the path;
    both append [.tmp] to [/p/.esdoc.json]. The second variant's emit hook is
    given such a path by [conf: '.esdoc.json.tmp'], and with
    [preserveTmpFile] false it meets one in its second cycle: the first cycle
    stored the transient path in [esdocConfig], the close handler removed the
    file, and the second cycle goes on from the path. *)
Theorem second_variant_appends_tmp_twice :
  let named := Async.apply node_env tmp_conf_options fs_with_esdoc in
  let cycle := Async.emit node_env tmp_conf_options ["/p/src/index.js"] named in
  let closed := Async.done_hook node_env discard_options written_state in
  let cycle2 := Async.emit node_env discard_options [] (snd closed) in
  Async.tmp_path "/p/.esdoc.json.tmp" = "/p/.esdoc.json.tmp.tmp" /\
  Sync.tmp_path node_env "/p/.esdoc.json.tmp" = "/p/.esdoc.json.tmp" /\
  Async.tmp_path "/p/.esdoc.json" = "/p/.esdoc.json.tmp" /\
  Sync.tmp_path node_env "/p/.esdoc.json" = "/p/.esdoc.json.tmp" /\
  (esdocConfig named = "/p/.esdoc.json.tmp" /\
   fst cycle = Normal tt /\
   tmpFile (snd cycle) = Some "/p/.esdoc.json.tmp.tmp") /\
  (tmpFile written_state = Some "/p/.esdoc.json.tmp" /\
   fst closed = Normal Async.Resolved /\
   fs (snd closed) !! "/p/.esdoc.json.tmp" = None /\
   fst cycle2 = Normal tt /\
   tmpFile (snd cycle2) = Some "/p/.esdoc.json.tmp.tmp").
Proof. vm_compute. repeat split; reflexivity. Qed.

(** ** Removing the transient file *)

(** First variant: the removal never throws; the file system is unchanged
    when retention is requested, and otherwise has lost the file, which may
    have been missing already. *)
Lemma first_variant_remove_tmp (options : Obj) (t : string) (s : St) :
  string_truthy t = true ->
  let r := Sync.remove_tmp options (Some t) s in
  fst r = Normal tt /\
  fs (snd r) = (if truthy (prop options "preserveTmpFile") then fs s
                else delete t (fs s)).
Proof.
  intros Ht. unfold Sync.remove_tmp. rewrite Ht. simpl.
  destruct (truthy (prop options "preserveTmpFile")); simpl;
    [split; reflexivity|].
  run_monad. unfold fs_unlinkSync.
  destruct (fs_existsSync (fs s) t) eqn:E; simpl; [split; reflexivity|].
  split; [reflexivity|].
  unfold fs_existsSync in E. apply bool_decide_eq_false in E.
  symmetry. apply delete_id. now apply eq_None_not_Some.
Qed.

(** Second variant: [unlinkSync] is called without asking whether the file
    exists, and throws when it does not. *)
Lemma second_variant_remove_missing (options : Obj) (t : string)
    (closeCode : Z) (s : St) :
  string_truthy t = true ->
  truthy (prop options "preserveTmpFile") = false ->
  fs s !! t = None ->
  Async.on_close options (Some t) closeCode s = (Throw (ENOENT t), s).
Proof.
  intros Ht Hp Hmissing. unfold Async.on_close, Async.preserveTmpFile.
  rewrite Ht, Hp. run_monad. unfold fs_unlinkSync, fs_existsSync.
  rewrite Hmissing. rewrite bool_decide_eq_false_2; [reflexivity|].
  intros [x Hx]. discriminate.
Qed.

(** C9. With [preserveTmpFile] false, the second variant's close handler
    removes the transient file when it is there; when the file is missing the
    handler throws [ENOENT] from [unlinkSync], where the first variant's
    removal, in the same state, completes normally and changes nothing. *)
Theorem second_variant_unlink_missing_throws :
  let removed := Async.done_hook node_env discard_options written_state in
  (tmpFile written_state = Some "/p/.esdoc.json.tmp" /\
   is_Some (fs written_state !! "/p/.esdoc.json.tmp") /\
   fst removed = Normal Async.Resolved /\
   fs (snd removed) !! "/p/.esdoc.json.tmp" = None) /\
  (fs gone_state !! "/p/.esdoc.json.tmp" = None /\
   fst (Async.done_hook node_env discard_options gone_state)
     = Throw (ENOENT "/p/.esdoc.json.tmp") /\
   Sync.remove_tmp discard_options (tmpFile gone_state) gone_state
     = (Normal tt, gone_state)).
Proof.
  vm_compute. repeat split; try reflexivity. eexists. reflexivity.
Qed.

(** ** Reporting the run *)

Lemma first_variant_remove_tmp_quiet (options : Obj) (t : option string) (s : St) :
  let r := Sync.remove_tmp options t s in
  fst r = Normal tt /\ console_error (snd r) = console_error s.
Proof.
  unfold Sync.remove_tmp. destruct t as [t|]; [|split; reflexivity].
  destruct (string_truthy t && negb (truthy (prop options "preserveTmpFile")));
    [|split; reflexivity].
  run_monad. unfold fs_unlinkSync.
  destruct (fs_existsSync (fs s) t); split; reflexivity.
Qed.

(** First variant: once the process has run, [Esdoc] returns an error exactly
    when [stderr] is not empty, and has then printed [stderr] on the error
    console; the exit status plays no part. *)
Lemma first_variant_fails_on_stderr (env : Env) (options : Obj)
    (cmd : option string) (esdocArgs : list string) (esdocConfigDir : string)
    (tmpFile : option string) (s : St) (esdoc : SpawnSyncReturns) (e : string) :
  spawnSync env cmd esdocArgs esdocConfigDir = Normal esdoc ->
  stderr esdoc = Some e ->
  let r := Sync.Esdoc env options cmd esdocArgs esdocConfigDir tmpFile s in
  fst r = Normal (if string_truthy e
                  then Sync.EsdocError (NewError "ESDocPlugin:")
                  else Sync.EsdocTrue) /\
  console_error (snd r) =
    console_error s ++ (if string_truthy e then ["ERR toString " +:+ e] else []).
Proof.
  intros Hspawn Herr.
  destruct (first_variant_remove_tmp_quiet options tmpFile s) as [Hn Hc].
  unfold Sync.Esdoc, bind, lift. rewrite Hspawn.
  destruct (Sync.remove_tmp options tmpFile s) as [c s1]. simpl in Hn, Hc.
  subst c. rewrite Herr. rewrite <- Hc.
  destruct e as [|a e]; run_monad; [|split; reflexivity].
  split; [reflexivity | now rewrite app_nil_r].
Qed.

(** Second variant: when something was collected from [stderr], the close
    handler prints it and then throws at [code]; [reject] is never reached. *)
Lemma second_variant_close_with_errors (options : Obj) (t : option string)
    (closeCode : Z) (s : St) :
  truthy (prop options "preserveTmpFile") = true ->
  esdocErrors s <> [] ->
  Async.on_close options t closeCode s =
  (Throw (ReferenceError "code"),
   set_console_error (console_error s ++ esdocErrors s) s).
Proof.
  intros Hp Herrs. unfold Async.on_close, Async.preserveTmpFile. rewrite Hp.
  cbn [negb]. destruct t as [t|]; [rewrite andb_false_r|]; run_monad;
    (destruct (esdocErrors s) eqn:E; [contradiction|]; simpl; now rewrite ?E).
Qed.

Lemma second_variant_close_clean (options : Obj) (t : option string)
    (closeCode : Z) (s : St) :
  truthy (prop options "preserveTmpFile") = true ->
  esdocErrors s = [] ->
  Async.on_close options t closeCode s = (Normal Async.Resolved, s).
Proof.
  intros Hp Herrs. unfold Async.on_close, Async.preserveTmpFile. rewrite Hp.
  cbn [negb]. destruct t as [t|]; [rewrite andb_false_r|]; run_monad;
    now rewrite Herrs.
Qed.

(** C2. For a run that writes to [stderr] and exits with 0, the second
    variant's promise is neither resolved nor rejected: the close handler
    prints the collected lines and throws a [ReferenceError] at [code]. The
    first variant returns an error and prints [stderr]; with an empty [stderr]
    both report success. *)
Theorem close_with_stderr_never_rejects :
  let s := snd (Async.emit warning_env project_options []
                  (Async.apply warning_env project_options fs_with_esdoc)) in
  let r := Async.done_hook warning_env project_options s in
  let s' := snd (Async.emit node_env project_options []
                   (Async.apply node_env project_options fs_with_esdoc)) in
  (fst r = Throw (ReferenceError "code") /\
   esdocErrors (snd r) = ["warning: deprecated"] /\
   console_error (snd r) = ["warning: deprecated"]) /\
  fst (Sync.Esdoc warning_env project_options (cmd s) (esdocArgs s) "/p"
         (tmpFile s) s)
    = Normal (Sync.EsdocError (NewError "ESDocPlugin:")) /\
  fst (Async.done_hook node_env project_options s') = Normal Async.Resolved /\
  fst (Sync.Esdoc node_env project_options (cmd s') (esdocArgs s') "/p"
         (tmpFile s') s')
    = Normal Sync.EsdocTrue.
Proof. vm_compute. repeat split; reflexivity. Qed.

(** * More of the plugin *)

(** ** The constructor *)

Lemma defaultOptions_lookup (opts : Obj) (k : string) :
  defaultOptions opts !! k =
  if decide (k = "conf") then Some (JStr ".esdoc.json")
  else if decide (k = "cwd") then Some (js_or (prop opts "cwd") (JStr "./"))
  else if decide (k = "preserveTmpFile") then Some (JBool true)
  else if decide (k = "showOutput") then Some (JBool false)
  else if decide (k = "source") then Some (JStr "./src")
  else if decide (k = "destination") then Some (JStr "./docs")
  else if decide (k = "excludes")
       then Some (JArr [JStr "\.config\.js"; JStr "\.babel\.js"])
  else if decide (k = "plugins")
       then Some (JArr [JObj [("name", JStr "esdoc-standard-plugin")]])
  else None.
Proof.
  unfold defaultOptions. cbn [list_to_map foldr uncurry fst snd].
  repeat (case_decide;
          [subst k; now rewrite lookup_insert_eq
          | rewrite lookup_insert_ne by congruence]).
  apply lookup_empty.
Qed.

Lemma merged_options_lookup (opts : Obj) (k : string) :
  merged_options opts !! k =
  match opts !! k with Some v => Some v | None => defaultOptions opts !! k end.
Proof.
  unfold merged_options, spread.
  destruct (opts !! k) as [v|] eqn:E.
  - now apply lookup_union_Some_l.
  - now apply lookup_union_r.
Qed.

Lemma validateOptions_spec (sch : list (string * SchemaType)) (opts : Obj)
    (name : string) :
  match validateOptions sch opts name with
  | Normal _ => Forall (passes opts) sch
  | Throw e => e = ValidationError name /\ Exists (fun entry => ~ passes opts entry) sch
  end.
Proof.
  unfold validateOptions.
  induction sch as [|[k ty] sch IH]; simpl; [constructor|].
  assert (Hk : (match opts !! k with
                | None | Some JUndefined => true
                | Some v => has_type ty v
                end = true) <-> passes opts (k, ty)).
  { unfold passes. simpl. destruct (opts !! k) as [v|]; [|tauto].
    destruct v; simpl; split; intros H; try tauto; try (now right || now left);
      destruct H as [H|H]; try discriminate; try reflexivity; exact H. }
  destruct (match opts !! k with
            | None | Some JUndefined => true
            | Some v => has_type ty v
            end) eqn:E; simpl.
  - destruct (forallb _ sch).
    + constructor; [now apply Hk | exact IH].
    + destruct IH as [He Hex]. split; [exact He | now right].
  - split; [reflexivity|]. left. intros Hp. apply Hk in Hp. discriminate.
Qed.

Lemma merged_options_typed (opts : Obj) (k : string) (ty : SchemaType) :
  (k, ty) ∈ schema -> passes opts (k, ty) ->
  exists v, merged_options opts !! k = Some v /\
            (v = JUndefined \/ has_type ty v = true).
Proof.
  intros Hin Hp. unfold passes in Hp. simpl in Hp.
  rewrite merged_options_lookup.
  destruct (opts !! k) as [v|] eqn:E; [eauto|].
  rewrite defaultOptions_lookup. unfold schema in Hin.
  repeat (apply elem_of_cons in Hin as [[= -> ->]|Hin];
          [simpl; eexists; split; [reflexivity|]; right;
           unfold prop; rewrite ?E; reflexivity|]).
  now apply elem_of_nil in Hin.
Qed.

(** X1. The constructor of either variant either throws the validation
    error, and then one of [conf], [cwd], [preserveTmpFile], [showOutput] is
    given with a value that is defined and not of the declared type; or it
    returns the options, and then every one of these four was missing,
    [undefined] or of its type. In the options a key the caller gives keeps
    the caller's value, each of the eight default keys is defined, [cwd] is
    the caller's value whenever the key is given, the empty string included,
    and ["./"] only when the key is missing, and each of the four validated
    keys holds a value of its type unless the caller gave [undefined]. *)
Theorem constructor_options (name : string) (arg : option Obj) :
  let opts : Obj :=
    match arg with
    | Some o => o
    | None => list_to_map [("source", JStr "./src"); ("destination", JStr "./docs")]
    end in
  match constructor name arg with
  | Throw e =>
      e = ValidationError name /\
      Exists (fun entry => exists v, opts !! fst entry = Some v /\
                                     v <> JUndefined /\
                                     has_type (snd entry) v = false) schema
  | Normal options =>
      options = merged_options opts /\
      Forall (passes opts) schema /\
      (forall k v, opts !! k = Some v -> options !! k = Some v) /\
      Forall (fun k => is_Some (options !! k)) default_keys /\
      prop options "cwd" =
        match opts !! "cwd" with Some v => v | None => JStr "./" end /\
      Forall (fun entry => exists v, options !! fst entry = Some v /\
                                     (v = JUndefined \/
                                      has_type (snd entry) v = true)) schema
  end.
Proof.
  intros opts. unfold constructor. fold opts.
  pose proof (validateOptions_spec schema opts name) as Hv.
  destruct (validateOptions schema opts name) as [[]|e].
  - split; [reflexivity|]. split; [exact Hv|].
    split; [intros k v H; rewrite merged_options_lookup; now rewrite H|].
    split.
    { unfold default_keys.
      repeat (constructor;
              [rewrite merged_options_lookup, defaultOptions_lookup;
               destruct (opts !! _); simpl; eauto|]).
      constructor. }
    split.
    { unfold prop at 1. rewrite merged_options_lookup, defaultOptions_lookup.
      destruct (opts !! "cwd") as [v|] eqn:E; [reflexivity|].
      simpl. unfold prop. rewrite E. reflexivity. }
    apply Forall_forall. intros [k ty] Hin.
    apply merged_options_typed; [exact Hin|].
    now apply (proj1 (Forall_forall _ _) Hv).
  - destruct Hv as [-> Hex]. split; [reflexivity|].
    eapply Exists_impl; [exact Hex|]. intros [k ty] Hn.
    unfold passes in Hn. simpl in *.
    destruct (opts !! k) as [v|]; [|tauto].
    exists v. split; [reflexivity|]. split.
    + intros ->. apply Hn. now left.
    + destruct (has_type ty v) eqn:E; [exfalso; apply Hn; now right | reflexivity].
Qed.

Lemma constructor_options_witness :
  (constructor first_variant_name (Some empty_cwd_opts) =
     Normal (merged_options empty_cwd_opts) /\
   prop (merged_options empty_cwd_opts) "cwd" = JStr "") /\
  (constructor second_variant_name (Some numeric_conf_opts) =
     Throw (ValidationError "ESDoc webpack plugin") /\
   Exists (fun entry => exists v, numeric_conf_opts !! fst entry = Some v /\
                                  v <> JUndefined /\
                                  has_type (snd entry) v = false) schema).
Proof.
  split; (split; [reflexivity|]).
  - generalize (constructor_options first_variant_name (Some empty_cwd_opts)).
    change (constructor first_variant_name (Some empty_cwd_opts))
      with (Normal (A := Obj) (merged_options empty_cwd_opts)).
    simpl. intros (_ & _ & _ & _ & Hcwd & _). exact Hcwd.
  - generalize (constructor_options second_variant_name (Some numeric_conf_opts)).
    change (constructor second_variant_name (Some numeric_conf_opts))
      with (Throw (A := Obj) (ValidationError "ESDoc webpack plugin")).
    simpl. intros [_ Hex]. exact Hex.
Defined.

(** ** What the merge does to the configuration *)

(** X2. With the options the constructor builds, the directory inferred from
    the dependency set never reaches the configuration: whenever the
    inference branch of either emit hook completes, [source] is the option's
    value, ["./src"] when the caller gave none. *)
Theorem inferred_source_is_overwritten
    (opts o : Obj) (deps : list string) (s : St) :
  let options := merged_options opts in
  let expected := default (JStr "./src") (opts !! "source") in
  (forall s', Sync.infer_from_bundles options o deps s = (Normal tt, s') ->
              exists e, obj s' = Some e /\ e !! "source" = Some expected) /\
  (forall s', Async.infer_from_bundles options o deps s = (Normal tt, s') ->
              exists e, obj s' = Some e /\ e !! "source" = Some expected).
Proof.
  intros options expected.
  assert (Hsrc : options !! "source" = Some expected).
  { unfold options, expected. rewrite merged_options_lookup, defaultOptions_lookup.
    now destruct (opts !! "source"). }
  split; intros s'.
  - unfold Sync.infer_from_bundles, bind, modify, get, lift.
    destruct (Sync.getLongestCommonSharedDirectory _) as [src|e]; [|discriminate].
    intros [= <-]. eexists. split; [reflexivity | now apply spread_lookup_right].
  - unfold Async.infer_from_bundles, bind, modify, get, lift.
    destruct (Async.getLongestCommonSharedDirectory _) as [src|e]; [|discriminate].
    intros [= <-]. eexists. split; [reflexivity | now apply spread_lookup_right].
Qed.

Lemma inferred_source_is_overwritten_witness :
  let deps := ["/proj/src/index.js"; "/proj/src/sub/index.js"] in
  let s := Sync.apply node_env project_options fs_no_config in
  let s' := snd (Sync.infer_from_bundles project_options ∅ deps s) in
  Sync.getLongestCommonSharedDirectory (files s') = Normal "/proj/src" /\
  Sync.infer_from_bundles project_options ∅ deps s = (Normal tt, s') /\
  exists e, obj s' = Some e /\ e !! "source" = Some (JStr "./src").
Proof.
  intros deps s s'.
  assert (H : Sync.infer_from_bundles project_options ∅ deps s = (Normal tt, s'))
    by (vm_compute; reflexivity).
  split; [vm_compute; reflexivity|]. split; [exact H|].
  exact (proj1 (inferred_source_is_overwritten
                  (list_to_map [("cwd", JStr "/p")]) ∅ deps s) s' H).
Defined.

(** X3. Merging is stable: a key the options do not have keeps the
    configuration's value, merging the options into an already merged
    configuration changes nothing, and so a cycle that takes the
    configuration-file branch on the object the previous cycle left in [obj]
    leaves the same state. *)
Theorem merge_is_stable (o options : Obj) :
  (forall k, options !! k = None -> spread o options !! k = o !! k) /\
  spread (spread o options) options = spread o options /\
  (forall s,
     let once := snd (Sync.use_config_file options o s) in
     snd (Sync.use_config_file options (spread o options) once) = once) /\
  (forall s,
     let once := snd (Async.use_config_file options o s) in
     snd (Async.use_config_file options (spread o options) once) = once).
Proof.
  assert (Hidem : spread (spread o options) options = spread o options).
  { unfold spread. apply map_eq. intros k.
    destruct (options !! k) as [v|] eqn:E.
    - now rewrite !(lookup_union_Some_l _ _ _ _ E).
    - now rewrite !(lookup_union_r _ _ _ E). }
  split; [intros k; apply spread_lookup_left|]. split; [exact Hidem|].
  split; intros s; simpl; unfold set_obj; simpl; now rewrite Hidem.
Qed.

Lemma merge_is_stable_witness :
  instance_options !! "includes" = None /\
  spread file_config instance_options !! "includes" = file_config !! "includes".
Proof.
  assert (H : instance_options !! "includes" = None) by (vm_compute; reflexivity).
  split; [exact H|].
  exact (proj1 (merge_is_stable file_config instance_options) "includes" H).
Defined.

(** ** Collecting the entry points *)

Lemma collect_unfold (dedup : bool) (files : list string) (p : string) :
  collect dedup files p =
  if kept p && negb (dedup && bool_decide (p ∈ files)) then files ++ [p]
  else files.
Proof. reflexivity. Qed.

Lemma collect_fold_prefix (dedup : bool) (deps files : list string) :
  files `prefix_of` fold_left (collect dedup) deps files.
Proof.
  revert files. induction deps as [|p deps IH]; intros files; simpl; [done|].
  etransitivity; [|apply IH]. rewrite collect_unfold.
  destruct (kept p && _); [now apply prefix_app_r | done].
Qed.

Lemma collect_fold_elem (deps files : list string) (x : string) :
  x ∈ fold_left (collect true) deps files <->
  x ∈ files \/ (x ∈ deps /\ kept x = true).
Proof.
  revert files. induction deps as [|p deps IH]; intros files; simpl.
  - rewrite elem_of_nil. tauto.
  - rewrite IH, collect_unfold, elem_of_cons. simpl.
    destruct (kept p) eqn:Hk; simpl.
    + case_bool_decide as Hin; simpl.
      * split; [tauto|]. intros [H|[[->|H] Hx]]; tauto.
      * rewrite elem_of_app, list_elem_of_singleton.
        split; [intros [[H| ->]|[H Hx]]; tauto|].
        intros [H|[[->|H] Hx]]; tauto.
    + split; [tauto|]. intros [H|[[->|H] Hx]]; [tauto|congruence|tauto].
Qed.

Lemma collect_fold_NoDup (deps files : list string) :
  NoDup files -> NoDup (fold_left (collect true) deps files).
Proof.
  revert files. induction deps as [|p deps IH]; intros files Hnd; simpl; [done|].
  apply IH. rewrite collect_unfold. simpl.
  destruct (kept p); simpl; [|done].
  case_bool_decide as Hin; simpl; [done|].
  apply NoDup_app. split; [done|]. split; [|apply NoDup_singleton].
  intros y Hy ->%list_elem_of_singleton. contradiction.
Qed.

Lemma collect_fold_fixed (deps files : list string) :
  (forall p, p ∈ deps -> kept p = true -> p ∈ files) ->
  fold_left (collect true) deps files = files.
Proof.
  induction deps as [|p deps IH]; intros Hall; simpl; [reflexivity|].
  rewrite collect_unfold. simpl.
  destruct (kept p) eqn:Hk; simpl.
  - rewrite bool_decide_eq_true_2 by (apply Hall; [left|exact Hk]). simpl.
    apply IH. intros q Hq. apply Hall. now right.
  - apply IH. intros q Hq. apply Hall. now right.
Qed.

(** X4. First variant: the paths collected so far are kept in place, a path
    is in [files] after the collection exactly when it was there before or is
    a dependency outside [node_modules] that matches the entry-point pattern,
    and no path is ever entered twice. *)
Theorem collected_files_first_variant (deps files : list string) :
  let result := fold_left (collect true) deps files in
  files `prefix_of` result /\
  (forall p, p ∈ result <-> p ∈ files \/ (p ∈ deps /\ kept p = true)) /\
  (NoDup files -> NoDup result).
Proof.
  intros result. split; [apply collect_fold_prefix|].
  split; [intros p; apply collect_fold_elem | apply collect_fold_NoDup].
Qed.

Lemma collected_files_first_variant_witness :
  let deps := ["/proj/src/index.js"; "/proj/node_modules/x/index.js";
               "/proj/src/index.js"; "/proj/src/app.js"] in
  NoDup ([] : list string) /\
  NoDup (fold_left (collect true) deps []) /\
  fold_left (collect true) deps [] = ["/proj/src/index.js"].
Proof.
  intros deps. assert (H : NoDup ([] : list string)) by constructor.
  split; [exact H|].
  split; [|vm_compute; reflexivity].
  exact (proj2 (proj2 (collected_files_first_variant deps [])) H).
Defined.

(** X5. First variant: collecting the same dependency set a second time, as
    the next build cycle does with the list it shares, changes nothing. *)
Theorem collecting_again_changes_nothing (deps files : list string) :
  let once := fold_left (collect true) deps files in
  fold_left (collect true) deps once = once.
Proof.
  intros once. apply collect_fold_fixed. intros p Hp Hk.
  apply collect_fold_elem. right. now split.
Qed.

(** X6. Second variant: there is no test for a path already collected, so
    each cycle appends every kept dependency again; after two cycles over
    the same dependency set each of them is in [files] twice more. *)
Theorem collecting_again_duplicates (deps files : list string) :
  let once := fold_left (collect false) deps files in
  once = files ++ List.filter kept deps /\
  fold_left (collect false) deps once =
    files ++ List.filter kept deps ++ List.filter kept deps.
Proof.
  assert (H : forall fs, fold_left (collect false) deps fs
                         = fs ++ List.filter kept deps).
  { induction deps as [|p deps IH]; intros fs; simpl; [now rewrite app_nil_r|].
    rewrite IH, collect_unfold. simpl. rewrite andb_true_r.
    destruct (kept p); [now rewrite <- app_assoc | reflexivity]. }
  intros once. unfold once. rewrite !H. split; [reflexivity|].
  now rewrite <- app_assoc.
Qed.

(** ** More on the common-prefix resolver *)

(** A string is cut before its last separator in one way only. *)
Lemma cut_unique (lcp d d' : list ascii) :
  ((exists t, lcp = d ++ sep :: t /\ (sep ∉ t)) \/ ((sep ∉ lcp) /\ d = [])) ->
  ((exists t, lcp = d' ++ sep :: t /\ (sep ∉ t)) \/ ((sep ∉ lcp) /\ d' = [])) ->
  d = d'.
Proof.
  intros [(t & Hl & Ht)|[Hn ->]] [(t' & Hl' & Ht')|[Hn' ->]].
  - rewrite Hl in Hl'.
    now destruct (not_elem_of_app_cons_inv_r sep sep d t d' t' Ht' Ht Hl').
  - exfalso. apply Hn'. rewrite Hl. apply elem_of_app. right. left.
  - exfalso. apply Hn. rewrite Hl'. apply elem_of_app. right. left.
  - reflexivity.
Qed.

(** X7. First variant: the result depends on which paths are in the list, not
    on their order nor on how often one occurs. *)
Theorem shared_directory_depends_on_members
    (s0 s0' : string) (rest rest' : list string)
    (Hsame : forall q, q ∈ s0 :: rest <-> q ∈ s0' :: rest') :
  Sync.getLongestCommonSharedDirectory (s0 :: rest) =
  Sync.getLongestCommonSharedDirectory (s0' :: rest').
Proof.
  destruct (shared_directory_is_truncated_lcp s0 rest)
    as (lcp & d & -> & Hall & Hmax & Hcut).
  destruct (shared_directory_is_truncated_lcp s0' rest')
    as (lcp' & d' & -> & Hall' & Hmax' & Hcut').
  assert (Hle : lcp `prefix_of` lcp').
  { apply Hmax'. apply Forall_forall. intros q Hq.
    apply (proj1 (Forall_forall _ _) Hall). now apply Hsame. }
  assert (Hge : lcp' `prefix_of` lcp).
  { apply Hmax. apply Forall_forall. intros q Hq.
    apply (proj1 (Forall_forall _ _) Hall'). now apply Hsame. }
  assert (lcp = lcp') as <-
    by (apply prefix_length_eq; [exact Hle | now apply prefix_length]).
  now rewrite (cut_unique lcp d d' Hcut Hcut').
Qed.

Lemma shared_directory_depends_on_members_witness :
  let l1 := ["/a/b/index.js"; "/a/b/c/index.js"; "/a/bb/index.js"] in
  let l2 := ["/a/bb/index.js"; "/a/b/index.js"; "/a/bb/index.js";
             "/a/b/c/index.js"] in
  (forall q, q ∈ l1 <-> q ∈ l2) /\
  Sync.getLongestCommonSharedDirectory l1 =
  Sync.getLongestCommonSharedDirectory l2.
Proof.
  intros l1 l2.
  assert (H : forall q, q ∈ l1 <-> q ∈ l2).
  { intros q. unfold l1, l2. rewrite !elem_of_cons, !elem_of_nil. tauto. }
  split; [exact H|].
  exact (shared_directory_depends_on_members _ _ _ _ H).
Defined.

(** X8. First variant: the result is the longest shared directory: every
    directory that, followed by a separator, starts all the paths is a start
    of the result. *)
Theorem shared_directory_is_longest
    (s0 : string) (rest : list string) (d' : list ascii)
    (Hshared : Forall (fun q => d' ++ [sep] `prefix_of` chars q) (s0 :: rest)) :
  exists d : list ascii,
    Sync.getLongestCommonSharedDirectory (s0 :: rest) = Normal (of_chars d) /\
    d' `prefix_of` d.
Proof.
  destruct (shared_directory_is_truncated_lcp s0 rest)
    as (lcp & d & Hres & _ & Hmax & Hcut).
  exists d. split; [exact Hres|].
  destruct (Hmax _ Hshared) as [u Hu].
  destruct Hcut as [(t & Hl & Ht)|[Hn _]].
  - rewrite <- app_assoc in Hu. simpl in Hu. rewrite Hl in Hu.
    destruct (prefix_weak_total d' d lcp) as [H|[w Hw]];
      [exists (sep :: u); now rewrite Hl, Hu | exists (sep :: t); exact Hl
      | exact H |].
    destruct w as [|x w]; [rewrite app_nil_r in Hw; now subst|].
    exfalso. subst d'. rewrite <- app_assoc in Hu. simpl in Hu.
    apply app_inv_head in Hu. injection Hu as <- ->.
    apply Ht. apply elem_of_app. right. left.
  - exfalso. apply Hn. rewrite Hu, <- app_assoc. apply elem_of_app. right. left.
Qed.

Lemma shared_directory_is_longest_witness :
  let l := ["/a/b/index.js"; "/a/b/c/index.js"] in
  Forall (fun q => chars "/a" ++ [sep] `prefix_of` chars q) l /\
  exists d, Sync.getLongestCommonSharedDirectory l = Normal (of_chars d) /\
            chars "/a" `prefix_of` d.
Proof.
  intros l.
  assert (H : Forall (fun q => chars "/a" ++ [sep] `prefix_of` chars q) l).
  { repeat constructor.
    - exists (chars "b/index.js"). reflexivity.
    - exists (chars "b/c/index.js"). reflexivity. }
  split; [exact H|].
  exact (shared_directory_is_longest _ _ _ H).
Defined.

(** X9. Whenever the second variant's resolver returns, which it does for a
    single path only, the first variant returns the same directory. *)
Theorem variants_agree_when_second_returns (s : list string) (r : string)
    (Hsecond : Async.getLongestCommonSharedDirectory s = Normal r) :
  Sync.getLongestCommonSharedDirectory s = Normal r /\ exists s0, s = [s0].
Proof.
  destruct s as [|s0 [|s1 rest]]; [discriminate| |discriminate].
  split; [|eauto]. rewrite <- Hsecond. simpl.
  rewrite substring0_of_nat, take_ge by done. reflexivity.
Qed.

Lemma variants_agree_when_second_returns_witness :
  Async.getLongestCommonSharedDirectory ["/proj/src/index.js"] = Normal "/proj/src" /\
  Sync.getLongestCommonSharedDirectory ["/proj/src/index.js"] = Normal "/proj/src".
Proof.
  assert (H : Async.getLongestCommonSharedDirectory ["/proj/src/index.js"]
              = Normal "/proj/src") by (vm_compute; reflexivity).
  split; [exact H|].
  exact (proj1 (variants_agree_when_second_returns _ _ H)).
Defined.

(** ** What a cycle tells the continuation *)

(** The error the hooks report when the executable is not found. *)
Lemma locate_second_variant (env : Env) (options : Obj) (s : St) :
  let c := lookupFile (path_join env) (path_resolve env) (fs_existsSync (fs s))
             (Async.ESDOC_FILES env) (search_dirs env options) in
  Async.locate env options s =
  (Normal tt,
   if cmd_truthy c then set_cmd c s
   else set_calls (calls s ++ [CbErr (NewError "ESDocPlugin:")]) (set_cmd c s)).
Proof.
  intros c. unfold Async.locate.
  change [Async.esdocConfigDir env options; Async.givenDirectory options;
          process_cwd env; module_dirname env] with (search_dirs env options).
  run_monad. fold c. destruct (cmd_truthy c); reflexivity.
Qed.

Lemma locate_first_variant (env : Env) (options : Obj) (s : St) :
  let c := lookupFile (path_join env) (path_resolve env) (fs_existsSync (fs s))
             (Sync.getESDocFiles env) (search_dirs env options) in
  Sync.locate env options s =
  (Normal tt,
   if cmd_truthy c then set_cmd c s
   else set_calls (calls s ++ [CbErr (NewError "ESDocPlugin:")]) (set_cmd c s)).
Proof.
  intros c. unfold Sync.locate.
  change [Sync.esdocConfigDir env options; Sync.givenDirectory options;
          process_cwd env; module_dirname env] with (search_dirs env options).
  run_monad. fold c. destruct (cmd_truthy c); reflexivity.
Qed.

(** Reading the configuration leaves [cmd] alone; the second variant either
    goes on without a call, or stops after handing the exception over. *)
Lemma read_config_second_variant (s : St) :
  let r := Async.read_config s in
  cmd (snd r) = cmd s /\
  ((fst r = Normal true /\ calls (snd r) = calls s) \/
   (fst r = Normal false /\
    exists e, calls (snd r) = calls s ++ [CbErr (Caught e)])).
Proof.
  unfold Async.read_config, Async.readConfigFile. run_monad.
  destruct (fs_existsSync (fs s) (esdocConfig s)); simpl;
    [|split; [reflexivity | left; split; reflexivity]].
  destruct (fs s !! esdocConfig s) as [[o|]|]; simpl;
    [|split; [reflexivity | right; split; eauto]..].
  destruct (require_loader (esdocConfig s)); simpl;
    [split; [reflexivity | left; split; reflexivity]
    |split; [reflexivity | right; split; eauto]|].
  destruct (size o); simpl;
    (split; [reflexivity|]);
    [left; split; reflexivity | right; split; eauto].
Qed.

(** The first variant's [catch] is never entered. *)
Lemma read_config_first_variant (s : St) :
  let r := Sync.read_config s in
  fst r = Normal true /\ cmd (snd r) = cmd s /\ calls (snd r) = calls s.
Proof.
  unfold Sync.read_config, Sync.readConfigFile. run_monad.
  destruct (fs_existsSync (fs s) (esdocConfig s)); simpl; now repeat split.
Qed.

Lemma resolve_config_second_variant_frame (options : Obj) (deps : list string)
    (s : St) :
  let r := Async.resolve_config options deps s in
  cmd (snd r) = cmd s /\ calls (snd r) = calls s.
Proof.
  unfold Async.resolve_config, Async.use_config_file, Async.infer_from_bundles.
  run_monad. destruct (obj s) as [o|]; [|now split].
  destruct (authoritative o); simpl; [now split|].
  destruct (Async.getLongestCommonSharedDirectory _); simpl; now split.
Qed.

Lemma resolve_config_first_variant_frame (options : Obj) (deps : list string)
    (s : St) :
  let r := Sync.resolve_config options deps s in
  cmd (snd r) = cmd s /\ calls (snd r) = calls s.
Proof.
  unfold Sync.resolve_config, Sync.use_config_file, Sync.infer_from_bundles.
  run_monad. destruct (obj s) as [o|]; [|now split].
  destruct (authoritative o); simpl; [now split|].
  destruct (Sync.getLongestCommonSharedDirectory _); simpl; now split.
Qed.

(** Writing the transient file may throw; it leaves [cmd] and the calls alone
    either way. *)
Lemma write_tmp_second_variant_frame (env : Env) (s : St) :
  let r := Async.write_tmp env s in
  cmd (snd r) = cmd s /\ calls (snd r) = calls s.
Proof.
  unfold Async.write_tmp, writeFileSync. run_monad.
  destruct (writeFileSync_error env _); simpl; [now split|].
  destruct (obj s); now split.
Qed.

Lemma write_tmp_first_variant_frame (env : Env) (s : St) :
  let r := Sync.write_tmp env s in
  cmd (snd r) = cmd s /\ calls (snd r) = calls s.
Proof.
  unfold Sync.write_tmp, writeFileSync. run_monad.
  destruct (writeFileSync_error env _); simpl; [now split|].
  destruct (obj s); now split.
Qed.

Lemma remove_tmp_first_variant_frame (options : Obj) (t : option string) (s : St) :
  let r := Sync.remove_tmp options t s in
  cmd (snd r) = cmd s /\ calls (snd r) = calls s.
Proof.
  unfold Sync.remove_tmp. destruct t as [t|]; [|now split].
  destruct (string_truthy t && negb (truthy (prop options "preserveTmpFile")));
    [|now split].
  run_monad. unfold fs_unlinkSync.
  destruct (fs_existsSync (fs s) t); now split.
Qed.

Lemma Esdoc_frame (env : Env) (options : Obj) (c : option string)
    (args : list string) (d : string) (t : option string) (s : St) :
  let r := Sync.Esdoc env options c args d t s in
  cmd (snd r) = cmd s /\ calls (snd r) = calls s.
Proof.
  destruct (remove_tmp_first_variant_frame options t s) as [Hc Hk].
  unfold Sync.Esdoc, bind, lift.
  destruct (spawnSync env c args d) as [esdoc|e]; [|now split].
  destruct (Sync.remove_tmp options t s) as [[[]|e] s1]; simpl in *; [|now split].
  rewrite <- Hc, <- Hk.
  destruct (stderr esdoc) as [err|]; run_monad; [|now split].
  destruct (0 <? String.length err)%nat; now split.
Qed.

Lemma after_locate_trace (c : option string) (s : St) :
  let s1 := if cmd_truthy c then set_cmd c s
            else set_calls (calls s ++ [CbErr (NewError "ESDocPlugin:")])
                   (set_cmd c s) in
  cmd s1 = c /\
  calls s1 = calls s ++ (if cmd_truthy c then []
                         else [CbErr (NewError "ESDocPlugin:")]).
Proof.
  destruct (cmd_truthy c); simpl; [now rewrite app_nil_r | now split].
Qed.

(** One emit cycle of the second variant, step by step. *)
Lemma emit_second_variant_steps
    (env : Env) (options : Obj) (deps : list string) (s : St) :
  let c := lookupFile (path_join env) (path_resolve env) (fs_existsSync (fs s))
             (Async.ESDOC_FILES env) (search_dirs env options) in
  let r := Async.emit env options deps s in
  let not_found := if cmd_truthy c then [] else [CbErr (NewError "ESDocPlugin:")] in
  cmd (snd r) = c /\
  match fst r with
  | Normal _ =>
      exists last, calls (snd r) = calls s ++ not_found ++ [last] /\
                   (last = CbNone \/ exists e, last = CbErr (Caught e))
  | Throw _ => calls (snd r) = calls s ++ not_found
  end.
Proof.
  intros c. unfold Async.emit, bind. rewrite locate_second_variant. fold c.
  destruct (after_locate_trace c s) as [Hc1 Hk1].
  set (s1 := if cmd_truthy c then _ else _) in *.
  destruct (read_config_second_variant s1) as [Hc2 Hk2].
  destruct (Async.read_config s1) as [go s2]. simpl in Hc2, Hk2.
  destruct Hk2 as [[-> Hk2]|[-> [e Hk2]]].
  - destruct (resolve_config_second_variant_frame options deps s2) as [Hc3 Hk3].
    destruct (Async.resolve_config options deps s2) as [[[]|e] s3];
      simpl in Hc3, Hk3.
    + destruct (write_tmp_second_variant_frame env s3) as (Hc4 & Hk4).
      destruct (Async.write_tmp env s3) as [[[]|e] s4]; simpl in Hc4, Hk4.
      * unfold callback, modify. simpl.
        rewrite Hc4, Hc3, Hc2, Hc1, Hk4, Hk3, Hk2, Hk1. split; [reflexivity|].
        exists CbNone. split; [now rewrite <- app_assoc | now left].
      * simpl. now rewrite Hc4, Hc3, Hc2, Hc1, Hk4, Hk3, Hk2, Hk1.
    + simpl. now rewrite Hc3, Hc2, Hc1, Hk3, Hk2, Hk1.
  - unfold ret. simpl. rewrite Hc2, Hc1, Hk2, Hk1. split; [reflexivity|].
    exists (CbErr (Caught e)). split; [now rewrite <- app_assoc | right; eauto].
Qed.

(** One emit cycle of the first variant, step by step. *)
Lemma emit_first_variant_steps
    (env : Env) (options : Obj) (deps : list string) (s : St) :
  let c := lookupFile (path_join env) (path_resolve env) (fs_existsSync (fs s))
             (Sync.getESDocFiles env) (search_dirs env options) in
  let r := Sync.emit env options deps s in
  let not_found := if cmd_truthy c then [] else [CbErr (NewError "ESDocPlugin:")] in
  cmd (snd r) = c /\
  exists tail, calls (snd r) = calls s ++ not_found ++ tail /\
    match fst r with
    | Normal _ => tail = [] \/ tail = [CbNone]
    | Throw _ => tail = []
    end.
Proof.
  intros c. unfold Sync.emit, bind. rewrite locate_first_variant. fold c.
  destruct (after_locate_trace c s) as [Hc1 Hk1].
  set (s1 := if cmd_truthy c then _ else _) in *.
  destruct (read_config_first_variant s1) as (Hgo & Hc2 & Hk2).
  destruct (Sync.read_config s1) as [go s2]. simpl in Hgo, Hc2, Hk2. subst go.
  destruct (resolve_config_first_variant_frame options deps s2) as [Hc3 Hk3].
  destruct (Sync.resolve_config options deps s2) as [[[]|e] s3];
    simpl in Hc3, Hk3.
  - destruct (write_tmp_first_variant_frame env s3) as (Hc4 & Hk4).
    destruct (Sync.write_tmp env s3) as [[[]|e] s4]; simpl in Hc4, Hk4.
    + unfold Sync.run_and_report, bind, get, try_catch.
      destruct (Esdoc_frame env options (cmd s4) (esdocArgs s4)
                  (Sync.esdocConfigDir env options) (tmpFile s4) s4) as [Hc5 Hk5].
      destruct (Sync.Esdoc _ _ _ _ _ _ s4) as [[res|e] s5]; simpl in Hc5, Hk5.
      * unfold ret, callback, modify. simpl.
        rewrite Hc5, Hc4, Hc3, Hc2, Hc1, Hk5, Hk4, Hk3, Hk2, Hk1.
        split; [reflexivity|].
        exists [CbNone]. split; [now rewrite <- app_assoc | now right].
      * unfold ret. simpl.
        rewrite Hc5, Hc4, Hc3, Hc2, Hc1, Hk5, Hk4, Hk3, Hk2, Hk1.
        split; [reflexivity|].
        exists []. split; [now rewrite app_nil_r | now left].
    + simpl. rewrite Hc4, Hc3, Hc2, Hc1, Hk4, Hk3, Hk2, Hk1. split; [reflexivity|].
      exists []. split; [now rewrite app_nil_r | reflexivity].
  - simpl. rewrite Hc3, Hc2, Hc1, Hk3, Hk2, Hk1. split; [reflexivity|].
    exists []. split; [now rewrite app_nil_r | reflexivity].
Qed.

(** X10. Second variant: what one emit cycle tells the continuation. The
    calls made before the cycle stay; the cycle adds the not-found error
    exactly when it found no executable; a cycle that completes adds one more
    call after it, either with no argument or with the exception caught while
    reading the configuration file; a cycle that ends in an exception adds
    nothing more. *)
Theorem second_variant_callback_trace
    (env : Env) (options : Obj) (deps : list string) (s : St) :
  let r := Async.emit env options deps s in
  let not_found := if cmd_truthy (cmd (snd r)) then []
                   else [CbErr (NewError "ESDocPlugin:")] in
  match fst r with
  | Normal _ =>
      exists last, calls (snd r) = calls s ++ not_found ++ [last] /\
                   (last = CbNone \/ exists e, last = CbErr (Caught e))
  | Throw _ => calls (snd r) = calls s ++ not_found
  end.
Proof.
  destruct (emit_second_variant_steps env options deps s) as [Hc H].
  simpl. rewrite Hc. exact H.
Qed.

(** X11. First variant: what one emit cycle tells the continuation. The cycle
    adds the not-found error exactly when it found no executable, and after
    it at most one call with no argument, none when the cycle ends in an
    exception; no other error ever reaches the continuation. *)
Theorem first_variant_callback_trace
    (env : Env) (options : Obj) (deps : list string) (s : St) :
  let r := Sync.emit env options deps s in
  let not_found := if cmd_truthy (cmd (snd r)) then []
                   else [CbErr (NewError "ESDocPlugin:")] in
  exists tail, calls (snd r) = calls s ++ not_found ++ tail /\
    match fst r with
    | Normal _ => tail = [] \/ tail = [CbNone]
    | Throw _ => tail = []
    end.
Proof.
  destruct (emit_first_variant_steps env options deps s) as [Hc H].
  simpl. rewrite Hc. exact H.
Qed.

Lemma lookupFile_no_candidates (j : string -> string -> string)
    (r : string -> string) (ex : string -> bool) (dirs : list string) :
  lookupFile j r ex [] dirs = None.
Proof. reflexivity. Qed.

(** X12. Second variant on Windows: the list of candidate files is empty, so
    whatever is installed no executable is found, and the first thing every
    emit cycle tells the continuation is the not-found error. *)
Theorem second_variant_on_windows
    (env : Env) (options : Obj) (deps : list string) (s : St)
    (Hwin : starts_with_win (process_platform env) = true) :
  let r := Async.emit env options deps s in
  cmd (snd r) = None /\
  exists tail, calls (snd r) = calls s ++ CbErr (NewError "ESDocPlugin:") :: tail.
Proof.
  destruct (emit_second_variant_steps env options deps s) as [Hc H].
  unfold Async.ESDOC_FILES, Async.isWindows in Hc, H. rewrite Hwin in Hc, H.
  rewrite lookupFile_no_candidates in Hc, H. simpl in H |- *.
  split; [exact Hc|].
  destruct (fst (Async.emit env options deps s)).
  - destruct H as (last & -> & _). eauto.
  - rewrite H. eauto.
Qed.

Lemma second_variant_on_windows_witness :
  let env := with_platform "win32" node_env in
  let r := Async.emit env project_options []
             (Async.apply env project_options fs_with_esdoc) in
  starts_with_win (process_platform env) = true /\
  cmd (snd r) = None /\
  exists tail, calls (snd r) = [] ++ CbErr (NewError "ESDocPlugin:") :: tail.
Proof.
  intros env r.
  assert (H : starts_with_win (process_platform env) = true) by reflexivity.
  split; [exact H|].
  exact (second_variant_on_windows env project_options []
           (Async.apply env project_options fs_with_esdoc) H).
Defined.

(** ** What a cycle leaves on disk *)

Lemma chars_append (a b : string) : chars (a +:+ b) = chars a ++ chars b.
Proof.
  induction a as [|x a IH]; [reflexivity|].
  change (x :: chars (a +:+ b) = x :: (chars a ++ chars b)). now rewrite IH.
Qed.

Lemma ends_with_tmp_append (b : string) : ends_with_tmp (b +:+ ".tmp") = true.
Proof.
  unfold ends_with_tmp. rewrite chars_append, rev_app_distr. reflexivity.
Qed.
















(** X16. First variant: naming the transient file is idempotent. When
    [path.parse] takes the transient path apart into the directory and the
    name it was put together from, the transient path of the transient path
    is that path again, so every later cycle writes to the same file. *)
Theorem first_variant_tmp_path_idempotent (env : Env) (esdocConfig : string) :
  let tmp := path_parse env esdocConfig in
  let name := if ends_with_tmp (base tmp) then base tmp
              else base tmp +:+ ".tmp" in
  path_parse env (dir tmp +:+ "/" +:+ name) = {| dir := dir tmp; base := name |} ->
  Sync.tmp_path env esdocConfig = dir tmp +:+ "/" +:+ name /\
  Sync.tmp_path env (Sync.tmp_path env esdocConfig) =
    Sync.tmp_path env esdocConfig.
Proof.
  intros tmp name Hparse.
  assert (Hname : ends_with_tmp name = true).
  { unfold name. destruct (ends_with_tmp (base tmp)) eqn:E;
      [exact E | apply ends_with_tmp_append]. }
  assert (Hfirst : Sync.tmp_path env esdocConfig = dir tmp +:+ "/" +:+ name).
  { unfold Sync.tmp_path. fold tmp. unfold name.
    now destruct (ends_with_tmp (base tmp)). }
  split; [exact Hfirst|]. rewrite Hfirst.
  unfold Sync.tmp_path at 1. rewrite Hparse. simpl. now rewrite Hname.
Qed.

Lemma first_variant_tmp_path_idempotent_witness :
  path_parse node_env "/p/.esdoc.json.tmp"
    = {| dir := "/p"; base := ".esdoc.json.tmp" |} /\
  Sync.tmp_path node_env (Sync.tmp_path node_env "/p/.esdoc.json") =
    Sync.tmp_path node_env "/p/.esdoc.json".
Proof.
  assert (H : path_parse node_env "/p/.esdoc.json.tmp"
              = {| dir := "/p"; base := ".esdoc.json.tmp" |})
    by (vm_compute; reflexivity).
  split; [exact H|].
  exact (proj2 (first_variant_tmp_path_idempotent node_env "/p/.esdoc.json" H)).
Defined.

(** X17. First variant: once [spawnSync] has returned, [Esdoc] has removed
    the transient file unless [preserveTmpFile] is truthy, whatever the
    process printed and also when reading a null [stderr] throws afterwards;
    when [spawnSync] itself throws, [Esdoc] throws the same and the file
    stays. *)
Theorem Esdoc_cleans_up_after_spawn (env : Env) (options : Obj)
    (c : option string) (args : list string) (d t : string) (s : St)
    (Ht : string_truthy t = true) :
  let r := Sync.Esdoc env options c args d (Some t) s in
  match spawnSync env c args d with
  | Normal _ =>
      fs (snd r) = (if truthy (prop options "preserveTmpFile") then fs s
                    else delete t (fs s))
  | Throw e => r = (Throw e, s)
  end.
Proof.
  destruct (first_variant_remove_tmp options t s Ht) as [Hn Hfs].
  unfold Sync.Esdoc, bind, lift.
  destruct (spawnSync env c args d) as [esdoc|e]; [|reflexivity].
  destruct (Sync.remove_tmp options (Some t) s) as [w s1]. simpl in Hn, Hfs.
  subst w. rewrite <- Hfs.
  destruct (stderr esdoc) as [err|]; run_monad; [|reflexivity].
  now destruct (0 <? String.length err)%nat.
Qed.

Lemma Esdoc_cleans_up_after_spawn_witness :
  let s := snd (Sync.write_tmp node_env
                  (Sync.apply node_env discard_options fs_with_esdoc)) in
  let r := Sync.Esdoc node_env discard_options (Some "/p/node_modules/.bin/esdoc")
             ["-c"; "/p/.esdoc.json.tmp"] "/p" (Some "/p/.esdoc.json.tmp") s in
  string_truthy "/p/.esdoc.json.tmp" = true /\
  is_Some (fs s !! "/p/.esdoc.json.tmp") /\
  fs (snd r) = delete "/p/.esdoc.json.tmp" (fs s).
Proof.
  intros s r. assert (H : string_truthy "/p/.esdoc.json.tmp" = true) by reflexivity.
  split; [exact H|]. split; [vm_compute; eexists; reflexivity|].
  exact (Esdoc_cleans_up_after_spawn node_env discard_options
           (Some "/p/node_modules/.bin/esdoc") ["-c"; "/p/.esdoc.json.tmp"]
           "/p" "/p/.esdoc.json.tmp" s H).
Defined.

(** X18. First variant: the emit hook drops what [Esdoc] returns. A run that
    printed on [stderr], for which [Esdoc] returns an error, ends the cycle
    like a clean run: the continuation is called once more, with no
    argument. *)
Theorem stderr_failure_is_reported_as_success (env : Env) (options : Obj)
    (s : St) (esdoc : SpawnSyncReturns) (e : string)
    (Hspawn : spawnSync env (cmd s) (esdocArgs s) (Sync.esdocConfigDir env options)
              = Normal esdoc)
    (Herr : stderr esdoc = Some e) :
  let r := Sync.run_and_report env options s in
  fst r = Normal tt /\ calls (snd r) = calls s ++ [CbNone].
Proof.
  destruct (first_variant_fails_on_stderr env options (cmd s) (esdocArgs s)
              (Sync.esdocConfigDir env options) (tmpFile s) s esdoc e Hspawn Herr)
    as [Hres _].
  destruct (Esdoc_frame env options (cmd s) (esdocArgs s)
              (Sync.esdocConfigDir env options) (tmpFile s) s) as [_ Hk].
  unfold Sync.run_and_report, bind, get, try_catch.
  destruct (Sync.Esdoc _ _ _ _ _ _ s) as [res s1]. simpl in Hres, Hk.
  subst res. unfold ret, callback, modify. simpl. now rewrite Hk.
Qed.

Lemma stderr_failure_is_reported_as_success_witness :
  let s := snd (Sync.write_tmp warning_env
                  (set_cmd (Some "/p/node_modules/.bin/esdoc")
                     (Sync.apply warning_env project_options fs_with_esdoc))) in
  fst (Sync.Esdoc warning_env project_options (cmd s) (esdocArgs s)
         (Sync.esdocConfigDir warning_env project_options) (tmpFile s) s)
    = Normal (Sync.EsdocError (NewError "ESDocPlugin:")) /\
  calls (snd (Sync.run_and_report warning_env project_options s)) = [CbNone].
Proof.
  intros s. split; [vm_compute; reflexivity|].
  exact (proj2 (stderr_failure_is_reported_as_success warning_env project_options s
                  {| stdout := Some "parse: /p/a/index.js";
                     stderr := Some "warning: deprecated"; status := Some 0%Z |}
                  "warning: deprecated" eq_refl eq_refl)).
Defined.

(** ** The promise of the second variant *)

Lemma on_close_never_rejects (options : Obj) (t : option string)
    (closeCode : Z) (s : St) (e : ErrorValue) :
  fst (Async.on_close options t closeCode s) <> Normal (Async.Rejected e).
Proof.
  unfold Async.on_close. destruct t as [t|]; run_monad; unfold fs_unlinkSync;
    repeat (match goal with
            | |- context [if ?b then _ else _] => destruct b; simpl
            end);
    discriminate.
Qed.

Lemma deliver_never_rejects (options : Obj) (events : list ProcEvent)
    (t : option string) (s : St) (e : ErrorValue) :
  fst (Async.deliver options events t s) <> Normal (Async.Rejected e).
Proof.
  revert s. induction events as [|ev events IH]; intros s; [discriminate|].
  destruct ev as [d|d|c]; simpl.
  - apply IH.
  - unfold bind, Async.on_stderr_data, modify. apply IH.
  - apply on_close_never_rejects.
Qed.

(** X19. Second variant: the promise is rejected exactly when [spawn] itself
    throws, with what it threw and with nothing changed; nothing the child
    does afterwards, and no handler, ever rejects it. *)
Theorem promise_rejects_only_when_spawn_throws (env : Env) (options : Obj)
    (c : option string) (args : list string) (d : string) (t : option string)
    (s : St) (x : ErrorValue) :
  fst (Async.promiseEsdoc env options c args d t s) = Normal (Async.Rejected x)
  <-> exists e, spawn env c args d = Throw e /\ x = Caught e.
Proof.
  unfold Async.promiseEsdoc.
  destruct (spawn env c args d) as [events|e]; simpl.
  - split; [|intros (e & He & _); discriminate].
    intros H. now apply deliver_never_rejects in H.
  - split; [intros [= <-]; eauto | intros (e' & [= <-] & ->); reflexivity].
Qed.

Lemma promise_rejects_only_when_spawn_throws_witness :
  spawn node_env None [] "/p"
    = Throw (TypeError "The file argument must be of type string") /\
  fst (Async.promiseEsdoc node_env project_options None [] "/p" None
         (Async.apply node_env project_options fs_without_esdoc))
    = Normal (Async.Rejected
                (Caught (TypeError "The file argument must be of type string"))).
Proof.
  assert (H : spawn node_env None [] "/p"
              = Throw (TypeError "The file argument must be of type string"))
    by reflexivity.
  split; [exact H|].
  apply (proj2 (promise_rejects_only_when_spawn_throws node_env project_options
                  None [] "/p" None _ _)).
  eexists. split; [exact H | reflexivity].
Defined.

Lemma deliver_before_close (options : Obj) (events : list ProcEvent)
    (t : option string) (s : St) :
  forallb (fun ev => negb (is_close ev)) events = true ->
  Async.deliver options events t s =
  (Normal Async.Pending,
   if stderr_chunks events is [] then s
   else set_esdocErrors (esdocErrors s ++ stderr_chunks events) s).
Proof.
  revert s. induction events as [|ev events IH]; intros s Hno; [reflexivity|].
  simpl in Hno. apply andb_true_iff in Hno as [Hev Hno].
  destruct ev as [d|d|c]; simpl in *; [now apply IH| |discriminate].
  unfold bind, Async.on_stderr_data, modify. rewrite (IH _ Hno). f_equal.
  destruct (stderr_chunks events) as [|d' ds]; simpl; [reflexivity|].
  unfold set_esdocErrors. simpl. now rewrite <- app_assoc.
Qed.

Lemma deliver_until_close (options : Obj) (pre post : list ProcEvent)
    (closeCode : Z) (t : option string) (s : St) :
  forallb (fun ev => negb (is_close ev)) pre = true ->
  Async.deliver options (pre ++ Close closeCode :: post) t s =
  Async.on_close options t closeCode (snd (Async.deliver options pre t s)).
Proof.
  revert s. induction pre as [|ev pre IH]; intros s Hno; [reflexivity|].
  simpl in Hno. apply andb_true_iff in Hno as [Hev Hno].
  destruct ev as [d|d|c]; simpl in *; [now apply IH| |discriminate].
  unfold bind, Async.on_stderr_data, modify.
  now rewrite (IH _ Hno).
Qed.

(** X20. Second variant: how the handlers see a run. As long as the child has
    not closed the promise is pending, nothing is removed or printed, and the
    chunks written to [stderr] have been appended, in order, to the list the
    runs share; the close handler then runs on that state, and whatever the
    child emits after closing is ignored. *)
Theorem handlers_collect_until_close (options : Obj) (pre post : list ProcEvent)
    (closeCode : Z) (t : option string) (s : St)
    (Hpre : forallb (fun ev => negb (is_close ev)) pre = true) :
  let running := Async.deliver options pre t s in
  (fst running = Normal Async.Pending /\
   esdocErrors (snd running) = esdocErrors s ++ stderr_chunks pre /\
   fs (snd running) = fs s /\ console_error (snd running) = console_error s) /\
  Async.deliver options (pre ++ Close closeCode :: post) t s =
  Async.on_close options t closeCode (snd running).
Proof.
  split; [|now apply deliver_until_close].
  rewrite (deliver_before_close _ _ _ _ Hpre). simpl.
  destruct (stderr_chunks pre); simpl; [now rewrite app_nil_r | now repeat split].
Qed.

Lemma handlers_collect_until_close_witness :
  let pre := [StdoutData "parse: a"; StderrData "warning 1"; StderrData "warning 2"] in
  let s := Async.apply node_env project_options fs_with_esdoc in
  forallb (fun ev => negb (is_close ev)) pre = true /\
  esdocErrors (snd (Async.deliver project_options pre None s))
    = [] ++ ["warning 1"; "warning 2"].
Proof.
  intros pre s.
  assert (H : forallb (fun ev => negb (is_close ev)) pre = true) by reflexivity.
  split; [exact H|].
  exact (proj1 (proj2 (proj1 (handlers_collect_until_close project_options pre []
                                0 None s H)))).
Defined.

(** X21. Second variant: the list of collected [stderr] chunks is shared by
    all runs and never emptied. Once it holds something, every later run that
    closes ends in the same [ReferenceError], also a run that prints
    nothing on [stderr]. *)
Theorem stale_errors_fail_every_later_run (options : Obj)
    (pre post : list ProcEvent) (closeCode : Z) (t : option string) (s : St)
    (Hkeep : truthy (prop options "preserveTmpFile") = true)
    (Hstale : esdocErrors s <> [])
    (Hpre : forallb (fun ev => negb (is_close ev)) pre = true) :
  fst (Async.deliver options (pre ++ Close closeCode :: post) t s)
    = Throw (ReferenceError "code").
Proof.
  rewrite (deliver_until_close _ _ _ _ _ _ Hpre).
  rewrite (deliver_before_close _ _ _ _ Hpre). simpl.
  rewrite second_variant_close_with_errors; [reflexivity | exact Hkeep |].
  destruct (stderr_chunks pre); [exact Hstale|]. simpl.
  destruct (esdocErrors s); [contradiction | discriminate].
Qed.

Lemma stale_errors_fail_every_later_run_witness :
  let s := set_esdocErrors ["warning: deprecated"]
             (Async.apply node_env project_options fs_with_esdoc) in
  truthy (prop project_options "preserveTmpFile") = true /\
  esdocErrors s <> [] /\
  fst (Async.deliver project_options ([StdoutData "parse: a"] ++ Close 0 :: [])
         None s) = Throw (ReferenceError "code").
Proof.
  intros s.
  assert (H1 : truthy (prop project_options "preserveTmpFile") = true)
    by (vm_compute; reflexivity).
  assert (H2 : esdocErrors s <> []) by discriminate.
  split; [exact H1|]. split; [exact H2|].
  exact (stale_errors_fail_every_later_run project_options [StdoutData "parse: a"]
           [] 0 None s H1 H2 eq_refl).
Defined.

(** ** The entry-point pattern *)

Lemma of_chars_app (a b : list ascii) : of_chars (a ++ b) = of_chars a +:+ of_chars b.
Proof.
  induction a as [|x a IH]; [reflexivity|].
  change (String x (of_chars (a ++ b)) = String x (of_chars a +:+ of_chars b)).
  now rewrite IH.
Qed.

Lemma of_chars_chars (s : string) : of_chars (chars s) = s.
Proof. apply string_of_list_ascii_of_string. Qed.

Ltac next_char H l :=
  destruct l as [|[[] [] [] [] [] [] [] []] l]; try discriminate H.

(** X22. The pattern [/index.js$/] has an unescaped dot: a path matches
    exactly when it ends in [index], one more character that is not a line
    terminator, and [js]; so [index.js] matches at the end of any path, and so
    does [index_js]. *)
Theorem entry_point_pattern (q : string) :
  matches_index_js q = true <->
  exists p c, q = p +:+ "index" +:+ String c "js" /\ is_line_terminator c = false.
Proof.
  unfold matches_index_js. split.
  - intros H. destruct (rev (chars q)) as [|a l] eqn:E; [discriminate|].
    destruct a as [[] [] [] [] [] [] [] []]; try discriminate H.
    next_char H l. destruct l as [|c l]; [discriminate|].
    next_char H l. next_char H l. next_char H l. next_char H l. next_char H l.
    exists (of_chars (rev l)), c. split; [|now apply negb_true_iff].
    rewrite <- (of_chars_chars q), <- (rev_involutive (chars q)), E.
    simpl. rewrite <- !app_assoc. simpl. now rewrite of_chars_app.
  - intros (p & c & -> & Hc). rewrite chars_append, rev_app_distr. simpl.
    now rewrite Hc.
Qed.

Lemma entry_point_pattern_witness :
  (exists p c, "/src/reindex_js" = p +:+ "index" +:+ String c "js" /\
               is_line_terminator c = false) /\
  matches_index_js "/src/reindex_js" = true.
Proof.
  assert (H : exists p c, "/src/reindex_js" = p +:+ "index" +:+ String c "js" /\
                          is_line_terminator c = false).
  { exists "/src/re", "_"%char. split; reflexivity. }
  split; [exact H|].
  exact (proj2 (entry_point_pattern "/src/reindex_js") H).
Defined.

(** ** The run time *)





(** X24. For a whole number of milliseconds below 2^52, the seconds are
    rounded on their own and not carried into the minutes: from 59.5 seconds
    past a whole minute on, the seconds field reads [60] beside the minute
    that has not ended. *)
Theorem run_time_shows_sixty_seconds (millis : N)
    (Hexact : exact_millis millis = true)
    (Hlate : (59500 <= millis mod 60000)%N) :
  millisToMinutesAndSeconds millis =
  number_to_string (millis / 60000) +:+ ":60".
Proof.
  unfold millisToMinutesAndSeconds.
  assert (H : thousandths_toFixed0 (millis mod 60000) = 60%N).
  { unfold thousandths_toFixed0.
    assert (Hlt : (millis mod 60000 < 60000)%N) by (apply N.mod_lt; discriminate).
    symmetry. apply (N.div_unique _ 1000 60 (millis mod 60000 + 500 - 60000)); lia. }
  rewrite H. reflexivity.
Qed.

Lemma run_time_shows_sixty_seconds_witness :
  exact_millis 119500 = true /\
  (59500 <= 119500 mod 60000)%N /\
  millisToMinutesAndSeconds 119500 = "1:60".
Proof.
  assert (He : exact_millis 119500 = true) by reflexivity.
  assert (H : (59500 <= 119500 mod 60000)%N) by (vm_compute; discriminate).
  split; [exact He|]. split; [exact H|].
  exact (run_time_shows_sixty_seconds 119500 He H).
Defined.
